(** * CS4270 ALSA SoC codec driver: clock-ratio resolution and register
      composition (sound/soc/codecs/cs4270.c)

    The driver is embedded shallowly.  C integers are [Z]; the bit
    operations [&], [|] and [~] are [Z.land], [Z.lor] and [Z.lnot], which
    agree with two's complement at every width.  The driver only ever
    combines a register value with non-negative constants, so a value read
    in the range of [unsigned int] stays in that range and the conversions
    between [int reg] and the [unsigned int] argument of [snd_soc_write]
    are the identity on it.  The one function that tests the sign of
    [int reg], [cs4270_soc_suspend], has the conversion written out
    ([int_of_unsigned]).

    The ASoC core (register I/O, mixer helper) and the header
    [sound/soc-dai.h] are not part of the driver: the driver is written
    against them, and so is the model, through the classes [soc_dai_h],
    [kconfig] and [soc_io]. *)

From Stdlib Require Import String ZArith List Bool Lia.
Import ListNotations.
Open Scope Z_scope.

(** ** What the driver takes from the kernel *)

(** The [SND_SOC_DAIFMT_x] constants of [sound/soc-dai.h] used by the
    driver.  Their numbering is the header's business; the theorems about
    the driver hold for any numbering. *)
Class soc_dai_h : Type := {
  SND_SOC_DAIFMT_I2S : Z;
  SND_SOC_DAIFMT_LEFT_J : Z;
  SND_SOC_DAIFMT_CBM_CFM : Z;
  SND_SOC_DAIFMT_CBS_CFS : Z;
  SND_SOC_DAIFMT_FORMAT_MASK : Z;
  SND_SOC_DAIFMT_MASTER_MASK : Z
}.

(** The one Kconfig option the driver tests. *)
Class kconfig : Type := {
  CONFIG_SND_SOC_CS4270_VD33_ERRATA : bool
}.

(** The register I/O of the ASoC core, over a host state [H] (register
    cache, bus).  [snd_soc_read] of a register that is not volatile is
    served from the cache and changes nothing; [snd_soc_write] returns 0 or
    a negative error code together with the host state after the
    transaction.  [snd_soc_put_volsw] is the generic mixer put callback,
    given the two switch values of the control element. *)
Class soc_io (H : Type) : Type := {
  snd_soc_read : H -> Z -> Z;
  snd_soc_write : H -> Z -> Z -> Z * H;
  snd_soc_put_volsw : H -> Z -> Z -> Z * H
}.

(** [EINVAL] of [asm-generic/errno-base.h]. *)
Definition EINVAL : Z := 22.

(** ** Register addresses and bit masks *)

Definition CS4270_CHIPID : Z := 0x01.
Definition CS4270_PWRCTL : Z := 0x02.
Definition CS4270_MODE : Z := 0x03.
Definition CS4270_FORMAT : Z := 0x04.
Definition CS4270_TRANS : Z := 0x05.
Definition CS4270_MUTE : Z := 0x06.
Definition CS4270_VOLA : Z := 0x07.
Definition CS4270_VOLB : Z := 0x08.

Definition CS4270_FIRSTREG : Z := 0x01.
Definition CS4270_LASTREG : Z := 0x08.

Definition CS4270_MODE_SPEED_MASK : Z := 0x30.
Definition CS4270_MODE_1X : Z := 0x00.
Definition CS4270_MODE_2X : Z := 0x10.
Definition CS4270_MODE_4X : Z := 0x20.
Definition CS4270_MODE_SLAVE : Z := 0x30.
Definition CS4270_MODE_DIV_MASK : Z := 0x0E.
Definition CS4270_MODE_DIV1 : Z := 0x00.
Definition CS4270_MODE_DIV15 : Z := 0x02.
Definition CS4270_MODE_DIV2 : Z := 0x04.
Definition CS4270_MODE_DIV3 : Z := 0x06.
Definition CS4270_MODE_DIV4 : Z := 0x08.
Definition CS4270_MODE_POPGUARD : Z := 0x01.
Definition CS4270_FORMAT_DAC_MASK : Z := 0x18.
Definition CS4270_FORMAT_DAC_LJ : Z := 0x00.
Definition CS4270_FORMAT_DAC_I2S : Z := 0x08.
Definition CS4270_FORMAT_ADC_MASK : Z := 0x01.
Definition CS4270_FORMAT_ADC_LJ : Z := 0x00.
Definition CS4270_FORMAT_ADC_I2S : Z := 0x01.
Definition CS4270_MUTE_AUTO : Z := 0x20.
Definition CS4270_MUTE_DAC_A : Z := 0x01.
Definition CS4270_MUTE_DAC_B : Z := 0x02.

(** Power-on default values of the registers, entry 0 being a filler. *)
Definition cs4270_default_reg_cache : list Z :=
  [0x00; 0x00; 0x00; 0x30; 0x00; 0x60; 0x20; 0x00; 0x00].

(** ** Driver data *)

(** [struct cs4270_private], without the regulator handles. *)
Record cs4270_private : Type := mk_private {
  control_type : Z;
  mclk : Z;          (* Input frequency of the MCLK pin *)
  mode : Z;          (* The mode (I2S or left-justified) *)
  slave_mode : Z;
  manual_mute : Z
}.

Definition set_mclk (p : cs4270_private) (v : Z) : cs4270_private :=
  mk_private (control_type p) v (mode p) (slave_mode p) (manual_mute p).
Definition set_mode (p : cs4270_private) (v : Z) : cs4270_private :=
  mk_private (control_type p) (mclk p) v (slave_mode p) (manual_mute p).
Definition set_slave_mode (p : cs4270_private) (v : Z) : cs4270_private :=
  mk_private (control_type p) (mclk p) (mode p) v (manual_mute p).
Definition set_manual_mute (p : cs4270_private) (v : Z) : cs4270_private :=
  mk_private (control_type p) (mclk p) (mode p) (slave_mode p) v.

(** The private data as [kzalloc] leaves it in [cs4270_i2c_probe], with
    the control type the probe then stores. *)
Definition cs4270_private_zalloc (ctl : Z) : cs4270_private :=
  mk_private ctl 0 0 0 0.

(** [struct cs4270_mode_ratios]: one line of the clock ratio table. *)
Module Ratio.
Record t : Type := mk {
  ratio : Z;       (* the ratio of MCLK to the sample rate *)
  speed_mode : Z;  (* Speed Mode bits of the Mode Control register *)
  mclk : Z         (* Ratio Select bits of the Mode Control register *)
}.
End Ratio.

(** The codec as the driver sees it: its private data and the host state
    behind the register I/O. *)
Record snd_soc_codec (H : Type) : Type := mk_codec {
  drvdata : cs4270_private;
  io : H
}.
Arguments mk_codec {H} _ _.
Arguments drvdata {H} _.
Arguments io {H} _.

Definition with_drvdata {H} (c : snd_soc_codec H) (p : cs4270_private)
  : snd_soc_codec H := mk_codec p (io c).
Definition with_io {H} (c : snd_soc_codec H) (h : H)
  : snd_soc_codec H := mk_codec (drvdata c) h.

(** ** The register composer of the specification *)

(** [composeRegister current clearMask setBits], in the specification's
    words: [(current & ~clearMask) | setBits].  The driver has no such
    function; it writes the expression out at each read-modify-write. *)
Definition composeRegister (current clearMask setBits : Z) : Z :=
  Z.lor (Z.land current (Z.lnot clearMask)) setBits.

Definition is_byte (x : Z) : Prop := 0 <= x < 256.

(** ** The driver *)

Section Driver.

Context {K : kconfig} {D : soc_dai_h} {H : Type} {IO : soc_io H}.

(** The clock ratio table; the divide-by-1.5 line is compiled in only
    without the errata option. *)
Definition cs4270_mode_ratios : list Ratio.t :=
  [Ratio.mk 64 CS4270_MODE_4X CS4270_MODE_DIV1] ++
  (if CONFIG_SND_SOC_CS4270_VD33_ERRATA then []
   else [Ratio.mk 96 CS4270_MODE_4X CS4270_MODE_DIV15]) ++
  [Ratio.mk 128 CS4270_MODE_2X CS4270_MODE_DIV1;
   Ratio.mk 192 CS4270_MODE_4X CS4270_MODE_DIV3;
   Ratio.mk 256 CS4270_MODE_1X CS4270_MODE_DIV1;
   Ratio.mk 384 CS4270_MODE_2X CS4270_MODE_DIV3;
   Ratio.mk 512 CS4270_MODE_1X CS4270_MODE_DIV2;
   Ratio.mk 768 CS4270_MODE_1X CS4270_MODE_DIV3;
   Ratio.mk 1024 CS4270_MODE_1X CS4270_MODE_DIV4].

Definition NUM_MCLK_RATIOS : nat := length cs4270_mode_ratios.

(** What [cs4270_mode_ratios[i]] reads; the driver never indexes past the
    table. *)
Definition ratio_at (i : nat) : Ratio.t :=
  nth i cs4270_mode_ratios (Ratio.mk 0 0 0).

Definition cs4270_reg_is_readable (reg : Z) : bool :=
  (CS4270_FIRSTREG <=? reg) && (reg <=? CS4270_LASTREG).

Definition cs4270_reg_is_volatile (reg : Z) : bool :=
  if (reg <? CS4270_FIRSTREG) || (reg >? CS4270_LASTREG) then true
  else reg =? CS4270_CHIPID.

(** [cs4270_set_dai_sysclk]: [clk_id] and [dir] are ignored. *)
Definition cs4270_set_dai_sysclk (codec : snd_soc_codec H)
    (clk_id freq dir : Z) : Z * snd_soc_codec H :=
  let cs4270 := drvdata codec in
  (0, with_drvdata codec (set_mclk cs4270 freq)).

(** [cs4270_set_dai_fmt]: the two [switch] statements in order; the first
    has already stored the mode when the second rejects the role. *)
Definition cs4270_set_dai_fmt (codec : snd_soc_codec H) (format : Z)
  : Z * snd_soc_codec H :=
  let cs4270 := drvdata codec in
  let fmt := Z.land format SND_SOC_DAIFMT_FORMAT_MASK in
  if (fmt =? SND_SOC_DAIFMT_I2S) || (fmt =? SND_SOC_DAIFMT_LEFT_J) then
    let cs4270 := set_mode cs4270 fmt in
    let role := Z.land format SND_SOC_DAIFMT_MASTER_MASK in
    if role =? SND_SOC_DAIFMT_CBS_CFS then
      (0, with_drvdata codec (set_slave_mode cs4270 1))
    else if role =? SND_SOC_DAIFMT_CBM_CFM then
      (0, with_drvdata codec (set_slave_mode cs4270 0))
    else
      (- EINVAL, with_drvdata codec cs4270)
  else
    (- EINVAL, codec).

(** The search loop of [cs4270_hw_params]:
    [for (i = 0; i < NUM_MCLK_RATIOS; i++) if (table[i].ratio == ratio) break;]
    run on the lines from index [i] on; the result is the final [i]. *)
Fixpoint ratio_scan (tab : list Ratio.t) (ratio : Z) (i : nat) : nat :=
  match tab with
  | [] => i
  | e :: rest =>
      if Ratio.ratio e =? ratio then i else ratio_scan rest ratio (S i)
  end.

(** [cs4270_hw_params] with the sampling rate [params_rate(params)].
    [None] stands for the division by zero of [mclk / rate] at rate 0,
    which C leaves undefined. *)
Definition cs4270_hw_params (codec : snd_soc_codec H) (rate : Z)
  : option (Z * snd_soc_codec H) :=
  let cs4270 := drvdata codec in
  if rate =? 0 then None else
  let ratio := mclk cs4270 / rate in
  let i := ratio_scan cs4270_mode_ratios ratio 0 in
  if Nat.eqb i NUM_MCLK_RATIOS then
    Some (- EINVAL, codec)
  else
    (* Set the sample rate *)
    let reg := snd_soc_read (io codec) CS4270_MODE in
    let reg :=
      Z.land reg (Z.lnot (Z.lor CS4270_MODE_SPEED_MASK CS4270_MODE_DIV_MASK)) in
    let reg := Z.lor reg (Ratio.mclk (ratio_at i)) in
    let reg :=
      if negb (slave_mode cs4270 =? 0) then Z.lor reg CS4270_MODE_SLAVE
      else Z.lor reg (Ratio.speed_mode (ratio_at i)) in
    let (ret, h1) := snd_soc_write (io codec) CS4270_MODE reg in
    if ret <? 0 then Some (ret, with_io codec h1) else
    (* Set the DAI format *)
    let reg := snd_soc_read h1 CS4270_FORMAT in
    let reg :=
      Z.land reg (Z.lnot (Z.lor CS4270_FORMAT_DAC_MASK CS4270_FORMAT_ADC_MASK)) in
    let switch :=
      if mode cs4270 =? SND_SOC_DAIFMT_I2S then
        Some (Z.lor reg (Z.lor CS4270_FORMAT_DAC_I2S CS4270_FORMAT_ADC_I2S))
      else if mode cs4270 =? SND_SOC_DAIFMT_LEFT_J then
        Some (Z.lor reg (Z.lor CS4270_FORMAT_DAC_LJ CS4270_FORMAT_ADC_LJ))
      else None in
    match switch with
    | None => Some (- EINVAL, with_io codec h1)
    | Some reg =>
        let (ret, h2) := snd_soc_write h1 CS4270_FORMAT reg in
        (* both the failure branch and the fall-through return [ret] *)
        Some (ret, with_io codec h2)
    end.

(** [cs4270_dai_mute]. *)
Definition cs4270_dai_mute (codec : snd_soc_codec H) (mute : Z)
  : Z * snd_soc_codec H :=
  let cs4270 := drvdata codec in
  let reg6 := snd_soc_read (io codec) CS4270_MUTE in
  let reg6 :=
    if negb (mute =? 0) then
      Z.lor reg6 (Z.lor CS4270_MUTE_DAC_A CS4270_MUTE_DAC_B)
    else
      let reg6 :=
        Z.land reg6 (Z.lnot (Z.lor CS4270_MUTE_DAC_A CS4270_MUTE_DAC_B)) in
      Z.lor reg6 (manual_mute cs4270) in
  let (ret, h1) := snd_soc_write (io codec) CS4270_MUTE reg6 in
  (ret, with_io codec h1).

(** [cs4270_soc_put_mute], given [ucontrol->value.integer.value[0]] and
    [[1]]. *)
Definition cs4270_soc_put_mute (codec : snd_soc_codec H) (value0 value1 : Z)
  : Z * snd_soc_codec H :=
  let cs4270 := drvdata codec in
  let left := value0 =? 0 in
  let right := value1 =? 0 in
  let cs4270 :=
    set_manual_mute cs4270
      (Z.lor (if left then CS4270_MUTE_DAC_A else 0)
             (if right then CS4270_MUTE_DAC_B else 0)) in
  let (ret, h1) := snd_soc_put_volsw (io codec) value0 value1 in
  (ret, mk_codec cs4270 h1).

(** The Speed Mode and Ratio Select bits [cs4270_hw_params] takes from
    table line [e]: the line's speed mode gives way to the slave pattern
    when the codec is clock slave. *)
Definition mode_bits (p : cs4270_private) (e : Ratio.t) : Z :=
  Z.lor (Ratio.mclk e)
        (if slave_mode p =? 0 then Ratio.speed_mode e else CS4270_MODE_SLAVE).

(** The Mode Control image for line [e], from the cached register. *)
Definition mode_image (codec : snd_soc_codec H) (e : Ratio.t) : Z :=
  composeRegister (snd_soc_read (io codec) CS4270_MODE)
                  (Z.lor CS4270_MODE_SPEED_MASK CS4270_MODE_DIV_MASK)
                  (mode_bits (drvdata codec) e).

(** The outcomes of [cs4270_hw_params] that start by writing [v] to the
    Mode Control register: the write fails and its error is the result; or
    it succeeds and the stored format is none the driver knows; or it
    succeeds and the Format register is written next, the result being that
    second write's.  The private data stays as it was in all three. *)
Inductive mode_programmed (codec : snd_soc_codec H) (v : Z)
  : option (Z * snd_soc_codec H) -> Prop :=
| mp_io_error ret h1 :
    snd_soc_write (io codec) CS4270_MODE v = (ret, h1) ->
    ret < 0 ->
    mode_programmed codec v (Some (ret, with_io codec h1))
| mp_unknown_format ret h1 :
    snd_soc_write (io codec) CS4270_MODE v = (ret, h1) ->
    0 <= ret ->
    mode (drvdata codec) <> SND_SOC_DAIFMT_I2S ->
    mode (drvdata codec) <> SND_SOC_DAIFMT_LEFT_J ->
    mode_programmed codec v (Some (- EINVAL, with_io codec h1))
| mp_format ret h1 v2 ret2 h2 :
    snd_soc_write (io codec) CS4270_MODE v = (ret, h1) ->
    0 <= ret ->
    snd_soc_write h1 CS4270_FORMAT v2 = (ret2, h2) ->
    mode_programmed codec v (Some (ret2, with_io codec h2)).

(** The driver's states: the private data as the probe allocates it, then
    any sequence of calls of the DAI operations and the mute control, the
    host being free to change the registers in between. *)
Inductive reachable : snd_soc_codec H -> Prop :=
| reach_probe ctl h :
    reachable (mk_codec (cs4270_private_zalloc ctl) h)
| reach_host c h :
    reachable c -> reachable (with_io c h)
| reach_set_sysclk c clk_id freq dir :
    reachable c -> reachable (snd (cs4270_set_dai_sysclk c clk_id freq dir))
| reach_set_fmt c format :
    reachable c -> reachable (snd (cs4270_set_dai_fmt c format))
| reach_hw_params c rate r :
    reachable c -> cs4270_hw_params c rate = Some r -> reachable (snd r)
| reach_dai_mute c mute :
    reachable c -> reachable (snd (cs4270_dai_mute c mute))
| reach_put_mute c value0 value1 :
    reachable c -> reachable (snd (cs4270_soc_put_mute c value0 value1)).

End Driver.

(** ** A host to run the driver on *)

Fixpoint list_set (l : list Z) (n : nat) (v : Z) : list Z :=
  match l, n with
  | [], _ => []
  | _ :: rest, O => v :: rest
  | x :: rest, S n' => x :: list_set rest n' v
  end.

(** Modelled from the spec: the register read/write primitive of the host
    ("read(registerAddress) -> byte", "write(registerAddress, byte) -> ok
    or IoError", a failed transaction leaving the cache as it was), which is
    code of the ASoC core and not of the driver.  [bus] scripts the outcome
    of the coming bus transactions (0, or a negative error code; none left
    means success) and [hw_log] records every write transaction attempted,
    oldest first. *)
Record regmap : Type := mk_regmap {
  reg_cache : list Z;
  bus : list Z;
  hw_log : list (Z * Z)
}.

Definition regmap_read (h : regmap) (reg : Z) : Z :=
  nth (Z.to_nat reg) (reg_cache h) 0.

Definition regmap_write (h : regmap) (reg value : Z) : Z * regmap :=
  let log := hw_log h ++ [(reg, value)] in
  let stored := list_set (reg_cache h) (Z.to_nat reg) (Z.land value 0xFF) in
  match bus h with
  | [] => (0, mk_regmap stored [] log)
  | e :: rest =>
      if e <? 0 then (e, mk_regmap (reg_cache h) rest log)
      else (0, mk_regmap stored rest log)
  end.

(** The "Master Playback Switch" put on this host: the two inverted switch
    values go to bits 0 and 1 of the MUTE register, through the same write
    primitive and only when they change it; the result is the change flag
    or the error of the write. *)
Definition regmap_put_volsw (h : regmap) (value0 value1 : Z) : Z * regmap :=
  let val := Z.lor (1 - Z.land value0 1) (Z.shiftl (1 - Z.land value1 1) 1) in
  let old := regmap_read h CS4270_MUTE in
  let new := Z.lor (Z.land old (Z.lnot 0x03)) val in
  if old =? new then (0, h)
  else
    let (ret, h1) := regmap_write h CS4270_MUTE new in
    if ret <? 0 then (ret, h1) else (1, h1).

#[export] Instance regmap_io : soc_io regmap := {
  snd_soc_read := regmap_read;
  snd_soc_write := regmap_write;
  snd_soc_put_volsw := regmap_put_volsw
}.

(** One numbering of the DAI format constants, to run the driver with. *)
Definition soc_dai_numbering : soc_dai_h := {|
  SND_SOC_DAIFMT_I2S := 1;
  SND_SOC_DAIFMT_LEFT_J := 3;
  SND_SOC_DAIFMT_CBM_CFM := 0x1000;
  SND_SOC_DAIFMT_CBS_CFS := 0x4000;
  SND_SOC_DAIFMT_FORMAT_MASK := 0x000f;
  SND_SOC_DAIFMT_MASTER_MASK := 0xf000
|}.

Definition errata_off : kconfig :=
  {| CONFIG_SND_SOC_CS4270_VD33_ERRATA := false |}.
Definition errata_on : kconfig :=
  {| CONFIG_SND_SOC_CS4270_VD33_ERRATA := true |}.

(** The codec right after the probe, on a bus that follows [script]. *)
Definition probed (script : list Z) : snd_soc_codec regmap :=
  mk_codec (cs4270_private_zalloc 0)
           (mk_regmap cs4270_default_reg_cache script []).

(** The same codec once the machine driver has set an I2S format with the
    codec as clock master and told it the MCLK frequency. *)
Definition started (script : list Z) (freq : Z) : snd_soc_codec regmap :=
  let D := soc_dai_numbering in
  let c := snd (cs4270_set_dai_fmt (probed script)
                  (Z.lor SND_SOC_DAIFMT_I2S SND_SOC_DAIFMT_CBM_CFM)) in
  snd (cs4270_set_dai_sysclk c 0 freq 0).

(** The probed codec after a left-justified format with the codec as
    clock master was accepted. *)
Definition left_justified_master : snd_soc_codec regmap :=
  let D := soc_dai_numbering in
  snd (cs4270_set_dai_fmt (probed [])
         (Z.lor SND_SOC_DAIFMT_LEFT_J SND_SOC_DAIFMT_CBM_CFM)).

(** The probed codec after the "Master Playback Switch" was put with the
    left switch off and the right switch on. *)
Definition left_switch_off : snd_soc_codec regmap :=
  snd (cs4270_soc_put_mute (probed []) 0 1).

(** A format word with the I2S format and a role (0x2000) that is neither
    of the two the driver accepts. *)
Definition i2s_other_role : Z :=
  let D := soc_dai_numbering in Z.lor SND_SOC_DAIFMT_I2S 0x2000.

(** The I2S format with the codec as clock slave. *)
Definition i2s_slave : Z :=
  let D := soc_dai_numbering in
  Z.lor SND_SOC_DAIFMT_I2S SND_SOC_DAIFMT_CBS_CFS.

(** ** Probe, removal and power management *)

Definition ENOMEM : Z := 12.
Definition ENODEV : Z := 19.

Definition CS4270_PWRCTL_FREEZE : Z := 0x80.
Definition CS4270_PWRCTL_PDN_ADC : Z := 0x20.
Definition CS4270_PWRCTL_PDN_DAC : Z := 0x02.
Definition CS4270_PWRCTL_PDN : Z := 0x01.
Definition CS4270_PWRCTL_PDN_ALL : Z :=
  Z.lor (Z.lor CS4270_PWRCTL_PDN_ADC CS4270_PWRCTL_PDN_DAC) CS4270_PWRCTL_PDN.
Definition CS4270_TRANS_SOFT : Z := 0x40.
Definition CS4270_TRANS_ZERO : Z := 0x20.

Definition supply_names : list string := ["va"; "vd"; "vlc"]%string.

(** The callbacks a mixer control names. *)
Inductive kcontrol_handler : Type :=
| snd_soc_get_volsw
| cs4270_soc_put_mute_cb.

(** A mixer control as the [SOC_x] macros declare it, arguments in the
    order of the macro. *)
Inductive snd_kcontrol_new : Type :=
| SOC_DOUBLE_R (xname : string) (reg_left reg_right xshift xmax xinvert : Z)
| SOC_SINGLE (xname : string) (reg shift max invert : Z)
| SOC_DOUBLE (xname : string) (reg shift_left shift_right max invert : Z)
| SOC_DOUBLE_EXT (xname : string) (xreg shift_left shift_right max invert : Z)
                 (xhandler_get xhandler_put : kcontrol_handler).

(** The non-DAPM controls of the CS4270. *)
Definition cs4270_snd_controls : list snd_kcontrol_new :=
  [SOC_DOUBLE_R "Master Playback Volume" CS4270_VOLA CS4270_VOLB 0 0xFF 1;
   SOC_SINGLE "Digital Sidetone Switch" CS4270_FORMAT 5 1 0;
   SOC_SINGLE "Soft Ramp Switch" CS4270_TRANS 6 1 0;
   SOC_SINGLE "Zero Cross Switch" CS4270_TRANS 5 1 0;
   SOC_SINGLE "De-emphasis filter" CS4270_TRANS 0 1 0;
   SOC_SINGLE "Popguard Switch" CS4270_MODE 0 1 1;
   SOC_SINGLE "Auto-Mute Switch" CS4270_MUTE 5 1 0;
   SOC_DOUBLE "Master Capture Switch" CS4270_MUTE 3 4 1 1;
   SOC_DOUBLE_EXT "Master Playback Switch" CS4270_MUTE 0 1 1 1
                  snd_soc_get_volsw cs4270_soc_put_mute_cb]%string.

(** The calls into the kernel that the probe, removal and power
    management paths make, each with the arguments the driver passes
    besides the device handles.  Array sizes are [ARRAY_SIZE] of the array
    passed. *)
Inductive kcall : Type :=
| snd_soc_codec_set_cache_io (addr_bits data_bits control : Z)
| snd_soc_update_bits (reg mask value : Z)
| snd_soc_add_controls (controls : list snd_kcontrol_new) (num_controls : nat)
| regulator_bulk_get (num_consumers : nat) (supplies : list string)
| regulator_bulk_enable (num_consumers : nat)
| regulator_bulk_disable (num_consumers : nat)
| regulator_bulk_free (num_consumers : nat)
| ndelay (nsecs : Z)
| snd_soc_cache_sync
| i2c_smbus_read_byte_data (command : Z)
| kzalloc_cs4270_private
| i2c_set_clientdata (data : Z)
| snd_soc_register_codec (num_dai : Z)
| snd_soc_unregister_codec
| kfree (data : Z).

(** The kernel behind those calls, over the host state: a call returns its
    [int] result (the pointer for [kzalloc], 0 being NULL; unused for the
    [void] functions) and the host state after it.  [SND_SOC_I2C] is the
    control type constant of [sound/soc.h]. *)
Class soc_core (H : Type) : Type := {
  SND_SOC_I2C : Z;
  kernel_call : H -> kcall -> Z * H
}.

(** What [cs4270_i2c_probe] leaves behind: the pointer that
    [i2c_set_clientdata] stored in the client, if it was called, and the
    contents of the block [kzalloc] returned, while that block is
    allocated. *)
Record i2c_binding : Type := mk_i2c_binding {
  clientdata : option Z;
  private_block : option cs4270_private
}.

(** The value an [int] holds once an [unsigned int] has been stored in
    it: the same 32 bits, read in two's complement. *)
Definition int_of_unsigned (x : Z) : Z := (x + 2 ^ 31) mod 2 ^ 32 - 2 ^ 31.

Section Lifecycle.

Context {H : Type} {IO : soc_io H} {CORE : soc_core H}.

(** [cs4270_probe].  The loop over [supply_names] stores the names in
    [cs4270->supplies], the array of regulator handles that
    [cs4270_private] here leaves out; the array is what
    [regulator_bulk_get] is then given, so the names appear as the
    argument of that call and not in [drvdata]. *)
Definition cs4270_probe (codec : snd_soc_codec H) : Z * snd_soc_codec H :=
  let cs4270 := drvdata codec in
  let (ret, h) :=
    kernel_call (io codec)
                (snd_soc_codec_set_cache_io 8 8 (control_type cs4270)) in
  if ret <? 0 then (ret, with_io codec h) else
  (* Disable auto-mute *)
  let (ret, h) :=
    kernel_call h (snd_soc_update_bits CS4270_MUTE CS4270_MUTE_AUTO 0) in
  if ret <? 0 then (ret, with_io codec h) else
  (* Disable automatic volume control *)
  let (ret, h) :=
    kernel_call h (snd_soc_update_bits CS4270_TRANS
                     (Z.lor CS4270_TRANS_SOFT CS4270_TRANS_ZERO) 0) in
  if ret <? 0 then (ret, with_io codec h) else
  (* Add the non-DAPM controls *)
  let (ret, h) :=
    kernel_call h (snd_soc_add_controls cs4270_snd_controls
                                        (length cs4270_snd_controls)) in
  if ret <? 0 then (ret, with_io codec h) else
  (* get the power supply regulators *)
  let supplies := map (fun name => name) supply_names in
  let (ret, h) :=
    kernel_call h (regulator_bulk_get (length supplies) supplies) in
  if ret <? 0 then (ret, with_io codec h) else
  let (ret, h) :=
    kernel_call h (regulator_bulk_enable (length supplies)) in
  if ret <? 0 then
    (* error_free_regulators *)
    let (_, h) := kernel_call h (regulator_bulk_free (length supplies)) in
    (ret, with_io codec h)
  else (0, with_io codec h).

(** [cs4270_remove]. *)
Definition cs4270_remove (codec : snd_soc_codec H) : Z * snd_soc_codec H :=
  let (_, h) :=
    kernel_call (io codec) (regulator_bulk_disable (length supply_names)) in
  let (_, h) := kernel_call h (regulator_bulk_free (length supply_names)) in
  (0, with_io codec h).

(** [cs4270_soc_suspend], as compiled with CONFIG_PM; the message argument
    is not used.  [snd_soc_read(...) | CS4270_PWRCTL_PDN_ALL] is an
    [unsigned int]; it is stored in [int reg], whose sign is tested, and
    [reg], then not negative, is what [snd_soc_write] is given. *)
Definition cs4270_soc_suspend (codec : snd_soc_codec H)
  : Z * snd_soc_codec H :=
  let reg :=
    int_of_unsigned
      (Z.lor (snd_soc_read (io codec) CS4270_PWRCTL) CS4270_PWRCTL_PDN_ALL) in
  if reg <? 0 then (reg, codec) else
  let (ret, h) := snd_soc_write (io codec) CS4270_PWRCTL reg in
  if ret <? 0 then (ret, with_io codec h) else
  let (_, h) :=
    kernel_call h (regulator_bulk_disable (length supply_names)) in
  (0, with_io codec h).

(** [cs4270_soc_resume], as compiled with CONFIG_PM. *)
Definition cs4270_soc_resume (codec : snd_soc_codec H)
  : Z * snd_soc_codec H :=
  let (_, h) :=
    kernel_call (io codec) (regulator_bulk_enable (length supply_names)) in
  (* wait 500ns before any I2C communication *)
  let (_, h) := kernel_call h (ndelay 500) in
  (* first restore the entire register cache ... *)
  let (_, h) := kernel_call h snd_soc_cache_sync in
  (* ... then disable the power-down bits *)
  let reg := snd_soc_read h CS4270_PWRCTL in
  let reg := Z.land reg (Z.lnot CS4270_PWRCTL_PDN_ALL) in
  let (ret, h) := snd_soc_write h CS4270_PWRCTL reg in
  (ret, with_io codec h).

(** [cs4270_i2c_probe]: the result, what the probe leaves behind and the
    host state.  The client data stays as [i2c_set_clientdata] set it: no
    path of the probe resets it, not the one that frees the block after a
    failed registration either. *)
Definition cs4270_i2c_probe (h : H) : Z * i2c_binding * H :=
  (* Verify that we have a CS4270 *)
  let (ret, h) := kernel_call h (i2c_smbus_read_byte_data CS4270_CHIPID) in
  if ret <? 0 then (ret, mk_i2c_binding None None, h) else
  (* The top four bits of the chip ID should be 1100. *)
  if negb (Z.land ret 0xF0 =? 0xC0)
  then (- ENODEV, mk_i2c_binding None None, h) else
  let (ptr, h) := kernel_call h kzalloc_cs4270_private in
  if ptr =? 0 then (- ENOMEM, mk_i2c_binding None None, h) else
  let cs4270 := mk_private 0 0 0 0 0 in
  let (_, h) := kernel_call h (i2c_set_clientdata ptr) in
  let cs4270 :=
    mk_private SND_SOC_I2C (mclk cs4270) (mode cs4270) (slave_mode cs4270)
               (manual_mute cs4270) in
  let (ret, h) := kernel_call h (snd_soc_register_codec 1) in
  if ret <? 0 then
    let (_, h) := kernel_call h (kfree ptr) in
    (ret, mk_i2c_binding (Some ptr) None, h)
  else (ret, mk_i2c_binding (Some ptr) (Some cs4270), h).

End Lifecycle.

(** ** Recording what the driver asks of its host *)

(** A host call that can change the host, with its arguments. *)
Inductive hcall : Type :=
| h_write (reg value : Z)
| h_put_volsw (value0 value1 : Z)
| h_kernel (call : kcall).

(** Any host, with the list of the calls made on it and their results,
    oldest first.  Reads are served by the host underneath and leave no
    entry. *)
Record traced (H : Type) : Type := mk_traced {
  inner : H;
  calls : list (hcall * Z)
}.
Arguments mk_traced {H} _ _.
Arguments inner {H} _.
Arguments calls {H} _.

Definition record {H : Type} (t : traced H) (c : hcall) (r : Z * H)
  : Z * traced H :=
  (fst r, mk_traced (snd r) (calls t ++ [(c, fst r)])).

#[export] Instance traced_io {H : Type} {IO : soc_io H}
  : soc_io (traced H) := {
  snd_soc_read t reg := snd_soc_read (inner t) reg;
  snd_soc_write t reg value :=
    record t (h_write reg value) (snd_soc_write (inner t) reg value);
  snd_soc_put_volsw t value0 value1 :=
    record t (h_put_volsw value0 value1)
           (snd_soc_put_volsw (inner t) value0 value1)
}.

#[export] Instance traced_core {H : Type} {CORE : soc_core H}
  : soc_core (traced H) := {
  SND_SOC_I2C := SND_SOC_I2C;
  kernel_call t c := record t (h_kernel c) (kernel_call (inner t) c)
}.

(** The ratios the comment of [cs4270_set_dai_sysclk] lists as supported,
    less 96 when the errata option removes divide-by-1.5. *)
Definition supported_ratios {K : kconfig} : list Z :=
  if CONFIG_SND_SOC_CS4270_VD33_ERRATA
  then [64; 128; 192; 256; 384; 512; 768; 1024]
  else [64; 96; 128; 192; 256; 384; 512; 768; 1024].

(** A kernel for the scripted host: every call goes through, [kzalloc]
    finds memory, and the chip answers the ID request with [chipid]. *)
Definition regmap_kernel (chipid : Z) (h : regmap) (c : kcall)
  : Z * regmap :=
  match c with
  | i2c_smbus_read_byte_data _ => (chipid, h)
  | kzalloc_cs4270_private => (1, h)
  | _ => (0, h)
  end.

Definition regmap_core (chipid : Z) : soc_core regmap := {|
  SND_SOC_I2C := 1;
  kernel_call := regmap_kernel chipid
|}.

(** The kernel calls of [cs4270_probe] in program order, up to the
    enabling of the supplies. *)
Definition cs4270_probe_calls (control : Z) : list kcall :=
  [snd_soc_codec_set_cache_io 8 8 control;
   snd_soc_update_bits CS4270_MUTE CS4270_MUTE_AUTO 0;
   snd_soc_update_bits CS4270_TRANS
                       (Z.lor CS4270_TRANS_SOFT CS4270_TRANS_ZERO) 0;
   snd_soc_add_controls cs4270_snd_controls 9;
   regulator_bulk_get 3 supply_names;
   regulator_bulk_enable 3].

(** A codec of the scripted host put on a recording host with an empty
    record, the chip answering ID requests with 0xC3. *)
Definition on_record (c : snd_soc_codec regmap)
  : snd_soc_codec (traced regmap) :=
  mk_codec (drvdata c) (mk_traced (io c) []).

#[export] Instance regmap_core_c3 : soc_core regmap := regmap_core 0xC3.

(** The calls that acquire, switch or release the supplies. *)
Definition is_regulator_call (c : hcall) : bool :=
  match c with
  | h_kernel (regulator_bulk_get _ _)
  | h_kernel (regulator_bulk_enable _)
  | h_kernel (regulator_bulk_disable _)
  | h_kernel (regulator_bulk_free _) => true
  | _ => false
  end.

(** What [cs4270_hw_params] returns on the recording host, for the runs
    where the rate is not 0. *)
Definition run_hw_params (K : kconfig) (c : snd_soc_codec (traced regmap))
    (rate : Z) : Z * snd_soc_codec (traced regmap) :=
  match @cs4270_hw_params K soc_dai_numbering _ _ c rate with
  | Some r => r
  | None => (0, c)
  end.

(** The probed codec on the recording host, with a PWRCTL cache entry
    that reads as 0xFFFFFFFF. *)
Definition pwrctl_all_ones : snd_soc_codec (traced regmap) :=
  mk_codec (cs4270_private_zalloc 0)
           (mk_traced
              (mk_regmap [0; 0; 0xFFFFFFFF; 0x30; 0; 0x60; 0x20; 0; 0] [] [])
              []).

(** A kernel for the scripted host on which the registration of the
    codec fails with -5, everything else going through. *)
Definition regmap_kernel_unregistered (h : regmap) (c : kcall)
  : Z * regmap :=
  match c with
  | i2c_smbus_read_byte_data _ => (0xC3, h)
  | kzalloc_cs4270_private => (1, h)
  | snd_soc_register_codec _ => (-5, h)
  | _ => (0, h)
  end.

Definition regmap_core_unregistered : soc_core regmap := {|
  SND_SOC_I2C := 1;
  kernel_call := regmap_kernel_unregistered
|}.

(** * Properties *)

(** ** Bit-field algebra of the read-modify-write *)

Lemma land_outside_0 (bits mask : Z) :
  Z.land bits (Z.lnot mask) = 0 -> Z.land bits mask = bits.
Proof.
  intro Hout.
  rewrite <- (Z.land_m1_r bits) at 2.
  rewrite <- (Z.lor_lnot_diag mask), Z.land_lor_distr_r, Hout.
  now rewrite Z.lor_0_r.
Qed.

Lemma composeRegister_frame (c mask bits : Z) :
  Z.land bits (Z.lnot mask) = 0 ->
  Z.land (composeRegister c mask bits) (Z.lnot mask) = Z.land c (Z.lnot mask).
Proof.
  intro Hout. unfold composeRegister.
  rewrite Z.land_lor_distr_l, Hout, Z.lor_0_r.
  now rewrite <- Z.land_assoc, Z.land_diag.
Qed.

Lemma composeRegister_field (c mask bits : Z) :
  Z.land bits (Z.lnot mask) = 0 ->
  Z.land (composeRegister c mask bits) mask = bits.
Proof.
  intro Hout. unfold composeRegister.
  rewrite Z.land_lor_distr_l, <- Z.land_assoc.
  rewrite (Z.land_comm (Z.lnot mask)), Z.land_lnot_diag, Z.land_0_r.
  now rewrite Z.lor_0_l, land_outside_0.
Qed.

(** A sub-field [sub] of the cleared mask reads back the bits set in it. *)
Lemma composeRegister_subfield (c mask bits sub : Z) :
  Z.land sub (Z.lnot mask) = 0 ->
  Z.land (composeRegister c mask bits) sub = Z.land bits sub.
Proof.
  intro Hsub. unfold composeRegister.
  rewrite Z.land_lor_distr_l, <- Z.land_assoc.
  rewrite (Z.land_comm (Z.lnot mask)), Hsub, Z.land_0_r.
  now rewrite Z.lor_0_l.
Qed.

Lemma is_byte_land_255 (x : Z) : is_byte x <-> Z.land x 255 = x.
Proof.
  unfold is_byte. change 255 with (Z.ones 8).
  rewrite Z.land_ones by lia. change (2 ^ 8) with 256. split.
  - intro Hx. now apply Z.mod_small.
  - intro Hx. rewrite <- Hx. apply Z.mod_pos_bound. lia.
Qed.

Lemma composeRegister_byte (c mask bits : Z) :
  is_byte c -> is_byte bits -> is_byte (composeRegister c mask bits).
Proof.
  rewrite !is_byte_land_255. intros Hc Hb. unfold composeRegister.
  rewrite Z.land_lor_distr_l, Hb.
  rewrite <- Z.land_assoc, (Z.land_comm (Z.lnot mask)), Z.land_assoc.
  now rewrite Hc.
Qed.

(** The same at the width of [unsigned int], or any other: composing
    values of [n] bits gives a value of [n] bits, so nothing wraps on the
    way from [int reg] to the argument of [snd_soc_write]. *)
Lemma composeRegister_range (n c mask bits : Z) :
  0 <= n -> 0 <= c < 2 ^ n -> 0 <= bits < 2 ^ n ->
  0 <= composeRegister c mask bits < 2 ^ n.
Proof.
  intros Hn Hc Hb.
  assert (Hfit : forall x, 0 <= x < 2 ^ n -> Z.land x (Z.ones n) = x)
    by (intros x Hx; rewrite Z.land_ones by exact Hn; now apply Z.mod_small).
  assert (Hres : Z.land (composeRegister c mask bits) (Z.ones n)
                 = composeRegister c mask bits).
  { unfold composeRegister.
    rewrite Z.land_lor_distr_l, (Hfit bits Hb).
    rewrite <- Z.land_assoc, (Z.land_comm (Z.lnot mask)), Z.land_assoc.
    now rewrite (Hfit c Hc). }
  rewrite <- Hres, Z.land_ones by exact Hn.
  apply Z.mod_pos_bound. lia.
Qed.

(** C2, as the specification words it, fails: a set bit outside the mask
    that is clear in the current value is changed. *)
Lemma compose_unrestricted_counterexample :
  ~ (forall c mask bits : Z,
       is_byte c -> is_byte mask -> is_byte bits ->
       Z.land (composeRegister c mask bits) (Z.lnot mask) =
       Z.land c (Z.lnot mask)).
Proof.
  intro Hall.
  specialize (Hall 0 0 1).
  unfold is_byte in Hall.
  assert (Hbad : Z.land (composeRegister 0 0 1) (Z.lnot 0) = Z.land 0 (Z.lnot 0))
    by (apply Hall; lia).
  vm_compute in Hbad. discriminate Hbad.
Qed.

(** C2 (amended): [composeRegister] maps bytes to a byte, and for every
    byte triple whose set bits lie inside the clear mask it leaves the bits
    outside the mask unchanged and stores exactly the set bits inside it. *)
Theorem composeRegister_preserves_outside_mask (c mask bits : Z) :
  is_byte c -> is_byte mask -> is_byte bits ->
  Z.land bits (Z.lnot mask) = 0 ->
  is_byte (composeRegister c mask bits) /\
  Z.land (composeRegister c mask bits) (Z.lnot mask) = Z.land c (Z.lnot mask) /\
  Z.land (composeRegister c mask bits) mask = bits.
Proof.
  intros Hc _ Hb Hout. split; [| split].
  - now apply composeRegister_byte.
  - now apply composeRegister_frame.
  - now apply composeRegister_field.
Qed.

Lemma composeRegister_preserves_outside_mask_witness :
  is_byte 0x31 /\ is_byte 0x3E /\ is_byte 0x22 /\
  Z.land 0x22 (Z.lnot 0x3E) = 0 /\
  is_byte (composeRegister 0x31 0x3E 0x22) /\
  Z.land (composeRegister 0x31 0x3E 0x22) (Z.lnot 0x3E)
    = Z.land 0x31 (Z.lnot 0x3E) /\
  Z.land (composeRegister 0x31 0x3E 0x22) 0x3E = 0x22.
Proof.
  assert (B1 : is_byte 0x31) by (unfold is_byte; lia).
  assert (B2 : is_byte 0x3E) by (unfold is_byte; lia).
  assert (B3 : is_byte 0x22) by (unfold is_byte; lia).
  assert (B4 : Z.land 0x22 (Z.lnot 0x3E) = 0) by reflexivity.
  split; [exact B1 |]. split; [exact B2 |]. split; [exact B3 |].
  split; [exact B4 |].
  exact (composeRegister_preserves_outside_mask 0x31 0x3E 0x22 B1 B2 B3 B4).
Defined.

(** ** The search loop *)

(** The loop stops at the first line whose ratio is the one looked for, and
    runs off the end of the lines exactly when there is none. *)
Lemma ratio_scan_spec (d : Ratio.t) (tab : list Ratio.t) (q : Z) :
  forall i : nat,
    (i <= ratio_scan tab q i <= i + length tab)%nat /\
    (forall j, (j < ratio_scan tab q i - i)%nat ->
               Ratio.ratio (nth j tab d) <> q) /\
    ((ratio_scan tab q i < i + length tab)%nat ->
       Ratio.ratio (nth (ratio_scan tab q i - i) tab d) = q).
Proof.
  induction tab as [| e rest IH]; intro i; simpl.
  - repeat split; lia.
  - destruct (Ratio.ratio e =? q) eqn:Heq.
    + apply Z.eqb_eq in Heq. split; [lia | split].
      * intros j Hj. lia.
      * intros _. now rewrite Nat.sub_diag.
    + apply Z.eqb_neq in Heq.
      destruct (IH (S i)) as [Hrange [Hbefore Hat]].
      split; [lia | split].
      * intros [| j] Hj; [exact Heq |].
        apply Hbefore. lia.
      * intro Hlt.
        replace (ratio_scan rest q (S i) - i)%nat
          with (S (ratio_scan rest q (S i) - S i)) by lia.
        apply Hat. lia.
Qed.

Section DriverFacts.

Context {K : kconfig} {D : soc_dai_h} {H : Type} {IO : soc_io H}.

(** *** The table *)

Lemma table_cases (e : Ratio.t) :
  In e cs4270_mode_ratios ->
  e = Ratio.mk 64 CS4270_MODE_4X CS4270_MODE_DIV1 \/
  (CONFIG_SND_SOC_CS4270_VD33_ERRATA = false /\
   e = Ratio.mk 96 CS4270_MODE_4X CS4270_MODE_DIV15) \/
  e = Ratio.mk 128 CS4270_MODE_2X CS4270_MODE_DIV1 \/
  e = Ratio.mk 192 CS4270_MODE_4X CS4270_MODE_DIV3 \/
  e = Ratio.mk 256 CS4270_MODE_1X CS4270_MODE_DIV1 \/
  e = Ratio.mk 384 CS4270_MODE_2X CS4270_MODE_DIV3 \/
  e = Ratio.mk 512 CS4270_MODE_1X CS4270_MODE_DIV2 \/
  e = Ratio.mk 768 CS4270_MODE_1X CS4270_MODE_DIV3 \/
  e = Ratio.mk 1024 CS4270_MODE_1X CS4270_MODE_DIV4.
Proof.
  unfold cs4270_mode_ratios.
  destruct CONFIG_SND_SOC_CS4270_VD33_ERRATA; simpl; intro Hin;
    repeat (destruct Hin as [Hin | Hin]; [symmetry in Hin; tauto |]);
    contradiction.
Qed.

Ltac table_line Hin :=
  apply table_cases in Hin;
  destruct Hin as
    [Hin | [[_ Hin] | [Hin | [Hin | [Hin | [Hin | [Hin | [Hin | Hin]]]]]]]];
  subst.

(** No two lines of the table carry the same ratio. *)
Lemma table_ratio_inj (e1 e2 : Ratio.t) :
  In e1 cs4270_mode_ratios -> In e2 cs4270_mode_ratios ->
  Ratio.ratio e1 = Ratio.ratio e2 -> e1 = e2.
Proof.
  intros H1 H2 Heq.
  table_line H1; table_line H2; simpl in Heq;
    first [reflexivity | discriminate Heq].
Qed.

(** Every line keeps its divider bits inside the divider field and its
    speed bits inside the speed field. *)
Lemma table_fields (e : Ratio.t) :
  In e cs4270_mode_ratios ->
  Z.land (Ratio.mclk e) (Z.lnot CS4270_MODE_DIV_MASK) = 0 /\
  Z.land (Ratio.speed_mode e) (Z.lnot CS4270_MODE_SPEED_MASK) = 0.
Proof.
  intro Hin. table_line Hin; split; reflexivity.
Qed.

Lemma ratio_at_In (i : nat) :
  (i < NUM_MCLK_RATIOS)%nat -> In (ratio_at i) cs4270_mode_ratios.
Proof. intro Hi. apply nth_In. exact Hi. Qed.

(** The loop on the whole table. *)
Lemma scan_table (q : Z) :
  let i := ratio_scan cs4270_mode_ratios q 0 in
  (i <= NUM_MCLK_RATIOS)%nat /\
  (forall j, (j < i)%nat -> Ratio.ratio (ratio_at j) <> q) /\
  ((i < NUM_MCLK_RATIOS)%nat -> Ratio.ratio (ratio_at i) = q).
Proof.
  destruct (ratio_scan_spec (Ratio.mk 0 0 0) cs4270_mode_ratios q 0)
    as [Hrange [Hbefore Hat]].
  rewrite Nat.sub_0_r in Hbefore, Hat.
  unfold NUM_MCLK_RATIOS, ratio_at. simpl in *.
  repeat split; [lia | exact Hbefore | exact Hat].
Qed.

Lemma scan_finds (q : Z) (e : Ratio.t) :
  In e cs4270_mode_ratios -> Ratio.ratio e = q ->
  (ratio_scan cs4270_mode_ratios q 0 < NUM_MCLK_RATIOS)%nat /\
  ratio_at (ratio_scan cs4270_mode_ratios q 0) = e.
Proof.
  intros Hin Hq.
  destruct (scan_table q) as [Hle [Hbefore Hat]].
  assert (Hlt : (ratio_scan cs4270_mode_ratios q 0 < NUM_MCLK_RATIOS)%nat).
  { destruct (In_nth _ _ (Ratio.mk 0 0 0) Hin) as [j [Hj Hnth]].
    destruct (Nat.lt_ge_cases (ratio_scan cs4270_mode_ratios q 0)
                              NUM_MCLK_RATIOS) as [Hlt | Hge]; [exact Hlt |].
    exfalso. apply (Hbefore j).
    - unfold NUM_MCLK_RATIOS in Hge. lia.
    - unfold ratio_at. now rewrite Hnth. }
  split; [exact Hlt |].
  apply table_ratio_inj.
  - now apply ratio_at_In.
  - exact Hin.
  - rewrite Hq. now apply Hat.
Qed.

Lemma scan_misses (q : Z) :
  (forall e, In e cs4270_mode_ratios -> Ratio.ratio e <> q) ->
  ratio_scan cs4270_mode_ratios q 0 = NUM_MCLK_RATIOS.
Proof.
  intro Hnone.
  destruct (scan_table q) as [Hle [_ Hat]].
  destruct (Nat.lt_ge_cases (ratio_scan cs4270_mode_ratios q 0)
                            NUM_MCLK_RATIOS) as [Hlt | Hge]; [| lia].
  exfalso. apply (Hnone (ratio_at (ratio_scan cs4270_mode_ratios q 0))).
  - now apply ratio_at_In.
  - now apply Hat.
Qed.

(** *** [cs4270_hw_params], branch by branch *)

Lemma mode_value_eq (p : cs4270_private) (e : Ratio.t) (reg : Z) :
  (if negb (slave_mode p =? 0)
   then Z.lor (Z.lor (Z.land reg (Z.lnot (Z.lor CS4270_MODE_SPEED_MASK
                                                CS4270_MODE_DIV_MASK)))
                     (Ratio.mclk e)) CS4270_MODE_SLAVE
   else Z.lor (Z.lor (Z.land reg (Z.lnot (Z.lor CS4270_MODE_SPEED_MASK
                                                CS4270_MODE_DIV_MASK)))
                     (Ratio.mclk e)) (Ratio.speed_mode e))
  = composeRegister reg (Z.lor CS4270_MODE_SPEED_MASK CS4270_MODE_DIV_MASK)
                    (mode_bits p e).
Proof.
  unfold composeRegister, mode_bits.
  destruct (slave_mode p =? 0); simpl negb; cbv iota;
    now rewrite Z.lor_assoc.
Qed.

Lemma hw_params_no_match (codec : snd_soc_codec H) (rate : Z) :
  rate <> 0 ->
  ratio_scan cs4270_mode_ratios (mclk (drvdata codec) / rate) 0
    = NUM_MCLK_RATIOS ->
  cs4270_hw_params codec rate = Some (- EINVAL, codec).
Proof.
  intros Hrate Hscan. unfold cs4270_hw_params.
  apply Z.eqb_neq in Hrate. rewrite Hrate, Hscan.
  now rewrite Nat.eqb_refl.
Qed.

Lemma hw_params_match (codec : snd_soc_codec H) (rate : Z) :
  rate <> 0 ->
  (ratio_scan cs4270_mode_ratios (mclk (drvdata codec) / rate) 0
     < NUM_MCLK_RATIOS)%nat ->
  mode_programmed codec
    (mode_image codec
       (ratio_at (ratio_scan cs4270_mode_ratios
                             (mclk (drvdata codec) / rate) 0)))
    (cs4270_hw_params codec rate).
Proof.
  intros Hrate Hscan. unfold cs4270_hw_params, mode_image.
  apply Z.eqb_neq in Hrate. rewrite Hrate.
  assert (Hne : Nat.eqb (ratio_scan cs4270_mode_ratios
                           (mclk (drvdata codec) / rate) 0)
                        NUM_MCLK_RATIOS = false)
    by (apply Nat.eqb_neq; lia).
  rewrite Hne, mode_value_eq.
  set (v := composeRegister _ _ _).
  destruct (snd_soc_write (io codec) CS4270_MODE v) as [ret h1] eqn:W1.
  destruct (ret <? 0) eqn:Hret.
  - apply Z.ltb_lt in Hret. now apply mp_io_error.
  - apply Z.ltb_ge in Hret.
    destruct (mode (drvdata codec) =? SND_SOC_DAIFMT_I2S) eqn:HI2S.
    + destruct (snd_soc_write h1 CS4270_FORMAT _) as [ret2 h2] eqn:W2.
      eapply mp_format; eassumption.
    + destruct (mode (drvdata codec) =? SND_SOC_DAIFMT_LEFT_J) eqn:HLJ.
      * destruct (snd_soc_write h1 CS4270_FORMAT _) as [ret2 h2] eqn:W2.
        eapply mp_format; eassumption.
      * apply Z.eqb_neq in HI2S, HLJ.
        now apply (mp_unknown_format codec v ret h1).
Qed.

(** Whatever it returns, [cs4270_hw_params] leaves the private data
    alone. *)
Lemma hw_params_drvdata (codec : snd_soc_codec H) (rate : Z) r :
  cs4270_hw_params codec rate = Some r -> drvdata (snd r) = drvdata codec.
Proof.
  unfold cs4270_hw_params.
  destruct (rate =? 0); [discriminate |].
  destruct (Nat.eqb _ _); [intro E; now inversion E |].
  destruct (snd_soc_write (io codec) CS4270_MODE _) as [ret h1].
  destruct (ret <? 0); [intro E; now inversion E |].
  destruct (mode (drvdata codec) =? SND_SOC_DAIFMT_I2S).
  - destruct (snd_soc_write h1 CS4270_FORMAT _) as [ret2 h2].
    intro E; now inversion E.
  - destruct (mode (drvdata codec) =? SND_SOC_DAIFMT_LEFT_J).
    + destruct (snd_soc_write h1 CS4270_FORMAT _) as [ret2 h2].
      intro E; now inversion E.
    + intro E; now inversion E.
Qed.

(** C1: for rate > 0 the driver divides MCLK by the rate and scans the
    table in order.  No line before the one the scan stops at has the
    quotient as its ratio; if a line of the table has it, the scan stops
    inside the table at that line and the call starts by writing the Mode
    Control image composed from the line's bits; if no line has it, the
    call fails with -EINVAL and the codec, registers included, is as
    before. *)
Theorem hw_params_resolves_first_match (codec : snd_soc_codec H) (rate : Z) :
  0 < rate ->
  (forall j,
     (j < ratio_scan cs4270_mode_ratios (mclk (drvdata codec) / rate) 0)%nat ->
     Ratio.ratio (ratio_at j) <> mclk (drvdata codec) / rate) /\
  (forall e,
     In e cs4270_mode_ratios ->
     Ratio.ratio e = mclk (drvdata codec) / rate ->
     (ratio_scan cs4270_mode_ratios (mclk (drvdata codec) / rate) 0
        < NUM_MCLK_RATIOS)%nat /\
     ratio_at (ratio_scan cs4270_mode_ratios (mclk (drvdata codec) / rate) 0)
       = e /\
     mode_programmed codec (mode_image codec e)
                     (cs4270_hw_params codec rate)) /\
  ((forall e, In e cs4270_mode_ratios ->
              Ratio.ratio e <> mclk (drvdata codec) / rate) ->
   cs4270_hw_params codec rate = Some (- EINVAL, codec)).
Proof.
  intro Hrate.
  assert (Hnz : rate <> 0) by lia.
  split; [| split].
  - apply scan_table.
  - intros e Hin Hq.
    destruct (scan_finds _ e Hin Hq) as [Hlt Hat].
    split; [exact Hlt | split; [exact Hat |]].
    rewrite <- Hat at 1. now apply hw_params_match.
  - intro Hnone. apply hw_params_no_match; [exact Hnz |].
    now apply scan_misses.
Qed.

(** No line of the table has ratio 0, with or without the errata option. *)
Lemma table_ratio_pos (e : Ratio.t) :
  In e cs4270_mode_ratios -> 0 < Ratio.ratio e.
Proof. intro Hin. table_line Hin; reflexivity. Qed.

(** C8 (amended): while the stored MCLK frequency is 0, every call with
    rate > 0 fails with -EINVAL, the code of an unsupported ratio, and the
    codec, registers included, is as before. *)
Theorem hw_params_unknown_mclk (codec : snd_soc_codec H) (rate : Z) :
  mclk (drvdata codec) = 0 -> 0 < rate ->
  cs4270_hw_params codec rate = Some (- EINVAL, codec).
Proof.
  intros Hmclk Hrate.
  apply hw_params_no_match; [lia |].
  apply scan_misses. intros e Hin.
  rewrite Hmclk, Z.div_0_l by lia.
  pose proof (table_ratio_pos e Hin). lia.
Qed.

(** C9: when the line is found and the write of the Mode Control image
    fails, the call returns the error code of that write as it is, and the
    host is left in the state that one write produced: no second
    transaction, no retry. *)
Theorem hw_params_mode_write_error (codec : snd_soc_codec H) (rate : Z)
    (ret : Z) (h1 : H) :
  0 < rate ->
  (ratio_scan cs4270_mode_ratios (mclk (drvdata codec) / rate) 0
     < NUM_MCLK_RATIOS)%nat ->
  snd_soc_write (io codec) CS4270_MODE
    (mode_image codec
       (ratio_at (ratio_scan cs4270_mode_ratios
                             (mclk (drvdata codec) / rate) 0)))
    = (ret, h1) ->
  ret < 0 ->
  cs4270_hw_params codec rate = Some (ret, with_io codec h1).
Proof.
  intros Hrate Hscan W Hret.
  assert (Hnz : rate <> 0) by lia.
  pose proof (hw_params_match codec rate Hnz Hscan) as Hprog.
  inversion Hprog as [ret' h1' W' Hneg Hres
                     | ret' h1' W' Hpos _ _ Hres
                     | ret' h1' v2 ret2 h2 W' Hpos _ Hres];
    rewrite W in W'; inversion W'; subst ret' h1'.
  - reflexivity.
  - lia.
  - lia.
Qed.

(** After a Mode Control write that went through, the result of the call
    is that of the Format write, whatever it is, or -EINVAL before any
    Format write when the stored format is unknown. *)
Lemma hw_params_format_write (codec : snd_soc_codec H) (rate : Z)
    (ret : Z) (h1 : H) :
  0 < rate ->
  (ratio_scan cs4270_mode_ratios (mclk (drvdata codec) / rate) 0
     < NUM_MCLK_RATIOS)%nat ->
  snd_soc_write (io codec) CS4270_MODE
    (mode_image codec
       (ratio_at (ratio_scan cs4270_mode_ratios
                             (mclk (drvdata codec) / rate) 0)))
    = (ret, h1) ->
  0 <= ret ->
  cs4270_hw_params codec rate = Some (- EINVAL, with_io codec h1) \/
  exists v2, cs4270_hw_params codec rate =
             Some (fst (snd_soc_write h1 CS4270_FORMAT v2),
                   with_io codec (snd (snd_soc_write h1 CS4270_FORMAT v2))).
Proof.
  intros Hrate Hscan W Hret.
  assert (Hnz : rate <> 0) by lia.
  pose proof (hw_params_match codec rate Hnz Hscan) as Hprog.
  inversion Hprog as [ret' h1' W' Hneg Hres
                     | ret' h1' W' Hpos _ _ Hres
                     | ret' h1' v2 ret2 h2 W' Hpos W2 Hres];
    rewrite W in W'; inversion W'; subst ret' h1'.
  - lia.
  - now left.
  - right. exists v2. now rewrite W2.
Qed.

(** C10: with a line found, the line [e] the scan stops at is a line of
    the table whose ratio is MCLK / rate, the first and the only such line.
    The call starts by writing the Mode Control image [v], which is the
    register as read with the two fields cleared, then the Ratio Select
    bits of [e], then the slave pattern or the Speed Mode bits of [e].  Its
    divider field holds the Ratio Select bits of [e]; its speed field is
    the slave pattern 0x30 whenever the slave-mode flag is set, and the
    Speed Mode bits of [e] only when the flag is clear; the bits outside
    the two fields are those read from the register. *)
Theorem hw_params_slave_speed_field (codec : snd_soc_codec H) (rate : Z) :
  0 < rate ->
  (ratio_scan cs4270_mode_ratios (mclk (drvdata codec) / rate) 0
     < NUM_MCLK_RATIOS)%nat ->
  exists e v,
    e = ratio_at (ratio_scan cs4270_mode_ratios
                             (mclk (drvdata codec) / rate) 0) /\
    In e cs4270_mode_ratios /\
    Ratio.ratio e = mclk (drvdata codec) / rate /\
    (forall j,
       (j < ratio_scan cs4270_mode_ratios (mclk (drvdata codec) / rate) 0)%nat
       -> Ratio.ratio (ratio_at j) <> mclk (drvdata codec) / rate) /\
    (forall e', In e' cs4270_mode_ratios ->
                Ratio.ratio e' = mclk (drvdata codec) / rate -> e' = e) /\
    v = Z.lor
          (Z.lor
             (Z.land (snd_soc_read (io codec) CS4270_MODE)
                     (Z.lnot (Z.lor CS4270_MODE_SPEED_MASK
                                    CS4270_MODE_DIV_MASK)))
             (Ratio.mclk e))
          (if slave_mode (drvdata codec) =? 0
           then Ratio.speed_mode e else CS4270_MODE_SLAVE) /\
    mode_programmed codec v (cs4270_hw_params codec rate) /\
    Z.land v CS4270_MODE_DIV_MASK = Ratio.mclk e /\
    (slave_mode (drvdata codec) <> 0 ->
     Z.land v CS4270_MODE_SPEED_MASK = CS4270_MODE_SLAVE) /\
    (slave_mode (drvdata codec) = 0 ->
     Z.land v CS4270_MODE_SPEED_MASK = Ratio.speed_mode e) /\
    Z.land v (Z.lnot (Z.lor CS4270_MODE_SPEED_MASK CS4270_MODE_DIV_MASK))
    = Z.land (snd_soc_read (io codec) CS4270_MODE)
             (Z.lnot (Z.lor CS4270_MODE_SPEED_MASK CS4270_MODE_DIV_MASK)).
Proof.
  intros Hrate Hscan.
  assert (Hnz : rate <> 0) by lia.
  destruct (scan_table (mclk (drvdata codec) / rate))
    as [_ [Hbefore Hat]].
  specialize (Hat Hscan).
  set (i := ratio_scan cs4270_mode_ratios (mclk (drvdata codec) / rate) 0)
    in *.
  pose proof (ratio_at_In i Hscan) as Hin.
  exists (ratio_at i), (mode_image codec (ratio_at i)).
  split; [reflexivity |].
  split; [exact Hin |].
  split; [exact Hat |].
  split; [exact Hbefore |].
  split.
  { intros e' Hin' Hq. apply table_ratio_inj; [exact Hin' | exact Hin |].
    now rewrite Hq, Hat. }
  split.
  { unfold mode_image, mode_bits, composeRegister.
    now rewrite Z.lor_assoc. }
  split; [now apply hw_params_match |].
  unfold mode_image, mode_bits.
  repeat split.
  - rewrite composeRegister_subfield by reflexivity.
    table_line Hin; rewrite Hin;
      destruct (slave_mode (drvdata codec) =? 0); reflexivity.
  - intro Hslave. apply Z.eqb_neq in Hslave. rewrite Hslave.
    rewrite composeRegister_subfield by reflexivity.
    table_line Hin; rewrite Hin; reflexivity.
  - intro Hslave. apply Z.eqb_eq in Hslave. rewrite Hslave.
    rewrite composeRegister_subfield by reflexivity.
    table_line Hin; rewrite Hin; reflexivity.
  - apply composeRegister_frame.
    table_line Hin; rewrite Hin;
      destruct (slave_mode (drvdata codec) =? 0); reflexivity.
Qed.

(** *** Clock and format configuration *)

(** C6: [cs4270_set_dai_sysclk] returns 0 for every frequency, stores the
    frequency as the MCLK input frequency and changes nothing else: the
    format mode, the slave-mode flag, the manual-mute bits and the host
    state behind the registers are as before. *)
Theorem set_dai_sysclk_records_mclk (codec : snd_soc_codec H)
    (clk_id freq dir : Z) :
  fst (cs4270_set_dai_sysclk codec clk_id freq dir) = 0 /\
  mclk (drvdata (snd (cs4270_set_dai_sysclk codec clk_id freq dir))) = freq /\
  mode (drvdata (snd (cs4270_set_dai_sysclk codec clk_id freq dir)))
    = mode (drvdata codec) /\
  slave_mode (drvdata (snd (cs4270_set_dai_sysclk codec clk_id freq dir)))
    = slave_mode (drvdata codec) /\
  manual_mute (drvdata (snd (cs4270_set_dai_sysclk codec clk_id freq dir)))
    = manual_mute (drvdata codec) /\
  control_type (drvdata (snd (cs4270_set_dai_sysclk codec clk_id freq dir)))
    = control_type (drvdata codec) /\
  io (snd (cs4270_set_dai_sysclk codec clk_id freq dir)) = io codec.
Proof. repeat split. Qed.

(** C4 (amended): a format outside {I2S, left-justified} or a role outside
    {CBS_CFS, CBM_CFM} makes [cs4270_set_dai_fmt] fail with -EINVAL; the
    MCLK frequency, the slave-mode flag, the manual-mute bits, the control
    type and the host state are as before.  The stored mode is as before
    when the format is the unsupported part; when the format is supported
    and only the role is not, the stored mode is the requested format. *)
Theorem set_dai_fmt_invalid (codec : snd_soc_codec H) (format : Z) :
  (Z.land format SND_SOC_DAIFMT_FORMAT_MASK <> SND_SOC_DAIFMT_I2S /\
   Z.land format SND_SOC_DAIFMT_FORMAT_MASK <> SND_SOC_DAIFMT_LEFT_J) \/
  (Z.land format SND_SOC_DAIFMT_MASTER_MASK <> SND_SOC_DAIFMT_CBS_CFS /\
   Z.land format SND_SOC_DAIFMT_MASTER_MASK <> SND_SOC_DAIFMT_CBM_CFM) ->
  fst (cs4270_set_dai_fmt codec format) = - EINVAL /\
  mclk (drvdata (snd (cs4270_set_dai_fmt codec format)))
    = mclk (drvdata codec) /\
  slave_mode (drvdata (snd (cs4270_set_dai_fmt codec format)))
    = slave_mode (drvdata codec) /\
  manual_mute (drvdata (snd (cs4270_set_dai_fmt codec format)))
    = manual_mute (drvdata codec) /\
  control_type (drvdata (snd (cs4270_set_dai_fmt codec format)))
    = control_type (drvdata codec) /\
  io (snd (cs4270_set_dai_fmt codec format)) = io codec /\
  ((Z.land format SND_SOC_DAIFMT_FORMAT_MASK <> SND_SOC_DAIFMT_I2S /\
    Z.land format SND_SOC_DAIFMT_FORMAT_MASK <> SND_SOC_DAIFMT_LEFT_J) ->
   snd (cs4270_set_dai_fmt codec format) = codec) /\
  ((Z.land format SND_SOC_DAIFMT_FORMAT_MASK = SND_SOC_DAIFMT_I2S \/
    Z.land format SND_SOC_DAIFMT_FORMAT_MASK = SND_SOC_DAIFMT_LEFT_J) ->
   mode (drvdata (snd (cs4270_set_dai_fmt codec format)))
     = Z.land format SND_SOC_DAIFMT_FORMAT_MASK).
Proof.
  intro Hbad. unfold cs4270_set_dai_fmt.
  destruct (Z.eqb_spec (Z.land format SND_SOC_DAIFMT_FORMAT_MASK)
                       SND_SOC_DAIFMT_I2S) as [HI | HI];
  destruct (Z.eqb_spec (Z.land format SND_SOC_DAIFMT_FORMAT_MASK)
                       SND_SOC_DAIFMT_LEFT_J) as [HL | HL];
  destruct (Z.eqb_spec (Z.land format SND_SOC_DAIFMT_MASTER_MASK)
                       SND_SOC_DAIFMT_CBS_CFS) as [HS | HS];
  destruct (Z.eqb_spec (Z.land format SND_SOC_DAIFMT_MASTER_MASK)
                       SND_SOC_DAIFMT_CBM_CFM) as [HM | HM];
  simpl;
  try (exfalso; destruct Hbad as [[? ?] | [? ?]]; contradiction);
  repeat split; try reflexivity; try tauto;
  intros [? ?]; contradiction.
Qed.

(** C5: for a format the driver accepts, a second [cs4270_set_dai_fmt]
    with the same format returns what the first returned, 0, and leaves
    the codec exactly as the first left it. *)
Theorem set_dai_fmt_idempotent (codec : snd_soc_codec H) (format : Z) :
  (Z.land format SND_SOC_DAIFMT_FORMAT_MASK = SND_SOC_DAIFMT_I2S \/
   Z.land format SND_SOC_DAIFMT_FORMAT_MASK = SND_SOC_DAIFMT_LEFT_J) ->
  (Z.land format SND_SOC_DAIFMT_MASTER_MASK = SND_SOC_DAIFMT_CBS_CFS \/
   Z.land format SND_SOC_DAIFMT_MASTER_MASK = SND_SOC_DAIFMT_CBM_CFM) ->
  fst (cs4270_set_dai_fmt codec format) = 0 /\
  cs4270_set_dai_fmt (snd (cs4270_set_dai_fmt codec format)) format
  = cs4270_set_dai_fmt codec format.
Proof.
  intros Hfmt Hrole. unfold cs4270_set_dai_fmt.
  assert (Hf : (Z.land format SND_SOC_DAIFMT_FORMAT_MASK
                  =? SND_SOC_DAIFMT_I2S)
               || (Z.land format SND_SOC_DAIFMT_FORMAT_MASK
                     =? SND_SOC_DAIFMT_LEFT_J) = true).
  { apply orb_true_iff. now rewrite !Z.eqb_eq. }
  rewrite Hf.
  destruct (Z.eqb_spec (Z.land format SND_SOC_DAIFMT_MASTER_MASK)
                       SND_SOC_DAIFMT_CBS_CFS) as [HS | HS].
  - simpl. now split.
  - destruct (Z.eqb_spec (Z.land format SND_SOC_DAIFMT_MASTER_MASK)
                         SND_SOC_DAIFMT_CBM_CFM) as [HM | HM].
    + simpl. now split.
    + exfalso. destruct Hrole; contradiction.
Qed.

(** *** Mute *)

Lemma lor_land_absorb (a b : Z) : Z.lor (Z.land a b) b = b.
Proof.
  apply Z.bits_inj'. intros n _.
  rewrite Z.lor_spec, Z.land_spec.
  destruct (Z.testbit a n), (Z.testbit b n); reflexivity.
Qed.

Lemma set_dai_fmt_manual_mute (codec : snd_soc_codec H) (format : Z) :
  manual_mute (drvdata (snd (cs4270_set_dai_fmt codec format)))
  = manual_mute (drvdata codec).
Proof.
  unfold cs4270_set_dai_fmt.
  destruct (_ || _); [| reflexivity].
  destruct (_ =? SND_SOC_DAIFMT_CBS_CFS); [reflexivity |].
  destruct (_ =? SND_SOC_DAIFMT_CBM_CFM); reflexivity.
Qed.

Lemma dai_mute_drvdata (codec : snd_soc_codec H) (mute : Z) :
  drvdata (snd (cs4270_dai_mute codec mute)) = drvdata codec.
Proof.
  unfold cs4270_dai_mute.
  destruct (snd_soc_write (io codec) CS4270_MUTE _) as [ret h1].
  reflexivity.
Qed.

(** What [cs4270_soc_put_mute] stores is the DAC A mute bit for a left
    switch that is off and the DAC B mute bit for a right switch that is
    off. *)
Lemma put_mute_manual_mute (codec : snd_soc_codec H) (value0 value1 : Z) :
  manual_mute (drvdata (snd (cs4270_soc_put_mute codec value0 value1)))
  = Z.lor (if value0 =? 0 then CS4270_MUTE_DAC_A else 0)
          (if value1 =? 0 then CS4270_MUTE_DAC_B else 0).
Proof.
  unfold cs4270_soc_put_mute.
  destruct (snd_soc_put_volsw (io codec) value0 value1) as [ret h1].
  reflexivity.
Qed.

(** In every state of the driver the stored manual-mute value has no bit
    outside the two DAC mute bits. *)
Lemma reachable_manual_mute (codec : snd_soc_codec H) :
  reachable codec ->
  Z.land (manual_mute (drvdata codec))
         (Z.lnot (Z.lor CS4270_MUTE_DAC_A CS4270_MUTE_DAC_B)) = 0.
Proof.
  induction 1 as [ctl h | c h _ IH | c clk_id freq dir _ IH | c format _ IH
                 | c rate r _ IH Hcall | c mute _ IH | c value0 value1 _ _].
  - reflexivity.
  - exact IH.
  - exact IH.
  - now rewrite set_dai_fmt_manual_mute.
  - now rewrite (hw_params_drvdata c rate r Hcall).
  - now rewrite dai_mute_drvdata.
  - rewrite put_mute_manual_mute.
    destruct (value0 =? 0), (value1 =? 0); reflexivity.
Qed.

(** C7: in every state of the driver, [cs4270_dai_mute] writes to the MUTE
    register a value whose bits other than the two DAC mute bits are those
    read from the register; on unmute (mute = 0) the two DAC mute bits are
    the stored manual-mute bits, on mute (mute <> 0) both are set.  The
    result of the call is that of the write. *)
Theorem dai_mute_keeps_manual_mute (codec : snd_soc_codec H) (mute : Z) :
  reachable codec ->
  exists v,
    cs4270_dai_mute codec mute
    = (fst (snd_soc_write (io codec) CS4270_MUTE v),
       with_io codec (snd (snd_soc_write (io codec) CS4270_MUTE v))) /\
    Z.land v (Z.lnot (Z.lor CS4270_MUTE_DAC_A CS4270_MUTE_DAC_B))
    = Z.land (snd_soc_read (io codec) CS4270_MUTE)
             (Z.lnot (Z.lor CS4270_MUTE_DAC_A CS4270_MUTE_DAC_B)) /\
    (mute = 0 ->
     Z.land v (Z.lor CS4270_MUTE_DAC_A CS4270_MUTE_DAC_B)
     = manual_mute (drvdata codec)) /\
    (mute <> 0 ->
     Z.land v (Z.lor CS4270_MUTE_DAC_A CS4270_MUTE_DAC_B)
     = Z.lor CS4270_MUTE_DAC_A CS4270_MUTE_DAC_B).
Proof.
  intro Hreach.
  pose proof (reachable_manual_mute codec Hreach) as Hmm.
  set (dac := Z.lor CS4270_MUTE_DAC_A CS4270_MUTE_DAC_B) in *.
  set (old := snd_soc_read (io codec) CS4270_MUTE).
  destruct (Z.eqb_spec mute 0) as [Hmute | Hmute].
  - exists (composeRegister old dac (manual_mute (drvdata codec))).
    split; [| split; [| split]].
    + unfold cs4270_dai_mute. rewrite (proj2 (Z.eqb_eq mute 0) Hmute).
      simpl negb. cbv iota. fold dac. fold old.
      unfold composeRegister.
      now destruct (snd_soc_write (io codec) CS4270_MUTE _).
    + now apply composeRegister_frame.
    + intros _. now apply composeRegister_field.
    + intro Hno. contradiction.
  - exists (Z.lor old dac).
    split; [| split; [| split]].
    + unfold cs4270_dai_mute. rewrite (proj2 (Z.eqb_neq mute 0) Hmute).
      simpl negb. cbv iota. fold dac. fold old.
      now destruct (snd_soc_write (io codec) CS4270_MUTE _).
    + rewrite Z.land_lor_distr_l, Z.land_lnot_diag. apply Z.lor_0_r.
    + intro Hno. contradiction.
    + intros _. rewrite Z.land_lor_distr_l, Z.land_diag.
      apply lor_land_absorb.
Qed.

End DriverFacts.

(** ** The errata option *)

(** C3: with MCLK 18432000 and rate 192000 the ratio is 96.  Without the
    errata option the scan stops inside the table at the line
    {96, 4x, divide-by-1.5} and the call starts by writing the Mode Control
    image of that line; with the option the same call fails with -EINVAL
    and the codec is as before. *)
Theorem errata_decides_ratio_96 (K : kconfig) (D : soc_dai_h) (H : Type)
    (IO : soc_io H) (codec : snd_soc_codec H) (clk_id dir : Z) :
  let c := snd (cs4270_set_dai_sysclk codec clk_id 18432000 dir) in
  mclk (drvdata c) / 192000 = 96 /\
  if CONFIG_SND_SOC_CS4270_VD33_ERRATA then
    cs4270_hw_params c 192000 = Some (- EINVAL, c)
  else
    (ratio_scan cs4270_mode_ratios 96 0 < NUM_MCLK_RATIOS)%nat /\
    ratio_at (ratio_scan cs4270_mode_ratios 96 0)
      = Ratio.mk 96 CS4270_MODE_4X CS4270_MODE_DIV15 /\
    mode_programmed c
      (mode_image c (Ratio.mk 96 CS4270_MODE_4X CS4270_MODE_DIV15))
      (cs4270_hw_params c 192000).
Proof.
  intro c. split; [reflexivity |].
  destruct CONFIG_SND_SOC_CS4270_VD33_ERRATA eqn:Herrata.
  - apply hw_params_no_match; [lia |].
    change (mclk (drvdata c) / 192000) with 96.
    unfold NUM_MCLK_RATIOS, cs4270_mode_ratios. now rewrite Herrata.
  - assert (Hscan : ratio_scan cs4270_mode_ratios 96 0 = 1%nat)
      by (unfold cs4270_mode_ratios; now rewrite Herrata).
    assert (Hnum : NUM_MCLK_RATIOS = 9%nat)
      by (unfold NUM_MCLK_RATIOS, cs4270_mode_ratios; now rewrite Herrata).
    assert (Hat : ratio_at 1 = Ratio.mk 96 CS4270_MODE_4X CS4270_MODE_DIV15)
      by (unfold ratio_at, cs4270_mode_ratios; now rewrite Herrata).
    rewrite Hscan, Hnum, Hat. split; [lia | split; [reflexivity |]].
    rewrite <- Hat, <- Hscan.
    change 96 with (mclk (drvdata c) / 192000).
    apply hw_params_match; [lia |].
    change (mclk (drvdata c) / 192000) with 96. rewrite Hscan, Hnum. lia.
Qed.

(** ** Runs on the scripted host *)

#[local] Existing Instance soc_dai_numbering.

(** The scenario of the specification: MCLK 12288000 at 48000 Hz is ratio
    256, single speed, divide-by-1; both registers are written. *)
Example hw_params_48k :
  @cs4270_hw_params errata_off soc_dai_numbering _ _
    (started [] 12288000) 48000
  = Some (0, mk_codec (mk_private 0 12288000 1 0 0)
               (mk_regmap [0; 0; 0; 0x00; 0x09; 0x60; 0x20; 0; 0] []
                          [(CS4270_MODE, 0x00); (CS4270_FORMAT, 0x09)])).
Proof. reflexivity. Qed.

(** The three registers the driver reads are served from the cache. *)
Example read_registers_not_volatile :
  cs4270_reg_is_volatile CS4270_MODE = false /\
  cs4270_reg_is_volatile CS4270_FORMAT = false /\
  cs4270_reg_is_volatile CS4270_MUTE = false /\
  cs4270_reg_is_volatile CS4270_CHIPID = true.
Proof. repeat split. Qed.

(** At 48000 Hz the line of ratio 256 is found and programmed; at 44100 Hz
    the ratio is 278, no line has it and the call fails. *)
Lemma hw_params_resolves_first_match_witness :
  0 < 48000 /\ 0 < 44100 /\
  ((ratio_scan (@cs4270_mode_ratios errata_off) (12288000 / 48000) 0
      < @NUM_MCLK_RATIOS errata_off)%nat /\
   @ratio_at errata_off
     (ratio_scan (@cs4270_mode_ratios errata_off) (12288000 / 48000) 0)
     = Ratio.mk 256 CS4270_MODE_1X CS4270_MODE_DIV1 /\
   @mode_programmed soc_dai_numbering _ _ (started [] 12288000)
     (mode_image (started [] 12288000)
                 (Ratio.mk 256 CS4270_MODE_1X CS4270_MODE_DIV1))
     (@cs4270_hw_params errata_off soc_dai_numbering _ _
        (started [] 12288000) 48000)) /\
  @cs4270_hw_params errata_off soc_dai_numbering _ _
    (started [] 12288000) 44100
  = Some (- EINVAL, started [] 12288000).
Proof.
  assert (Hrate : 0 < 48000) by lia.
  assert (Hrate' : 0 < 44100) by lia.
  split; [exact Hrate |]. split; [exact Hrate' |]. split.
  - refine (proj1 (proj2 (@hw_params_resolves_first_match
                            errata_off soc_dai_numbering _ _
                            (started [] 12288000) 48000 Hrate))
                  (Ratio.mk 256 CS4270_MODE_1X CS4270_MODE_DIV1) _ _).
    + simpl. tauto.
    + reflexivity.
  - apply (proj2 (proj2 (@hw_params_resolves_first_match
                           errata_off soc_dai_numbering _ _
                           (started [] 12288000) 44100 Hrate'))).
    intros e Hin.
    change (mclk (drvdata (started [] 12288000)) / 44100) with 278.
    simpl in Hin.
    repeat (destruct Hin as [Hin | Hin]; [rewrite <- Hin; discriminate |]).
    contradiction.
Defined.

(** C4, as stated, fails: with a supported format and an unsupported role
    the call fails after it has stored the format, so the private data is
    not as before. *)
Lemma invalid_role_overwrites_mode :
  ~ (forall (codec : snd_soc_codec regmap) (format : Z),
       (Z.land format SND_SOC_DAIFMT_FORMAT_MASK <> SND_SOC_DAIFMT_I2S /\
        Z.land format SND_SOC_DAIFMT_FORMAT_MASK <> SND_SOC_DAIFMT_LEFT_J) \/
       (Z.land format SND_SOC_DAIFMT_MASTER_MASK <> SND_SOC_DAIFMT_CBS_CFS /\
        Z.land format SND_SOC_DAIFMT_MASTER_MASK <> SND_SOC_DAIFMT_CBM_CFM) ->
       fst (cs4270_set_dai_fmt codec format) = - EINVAL /\
       drvdata (snd (cs4270_set_dai_fmt codec format)) = drvdata codec).
Proof.
  intro Hall.
  destruct (Hall left_justified_master i2s_other_role) as [_ Hsame].
  - right. split; vm_compute; discriminate.
  - vm_compute in Hsame. discriminate Hsame.
Qed.

(** The run behind it: the stored mode goes from left-justified to I2S
    while the call fails. *)
Example invalid_role_run :
  mode (drvdata left_justified_master) = SND_SOC_DAIFMT_LEFT_J /\
  cs4270_set_dai_fmt left_justified_master i2s_other_role
  = (- EINVAL,
     with_drvdata left_justified_master
       (set_mode (drvdata left_justified_master) SND_SOC_DAIFMT_I2S)).
Proof. split; reflexivity. Qed.

Lemma set_dai_fmt_invalid_witness :
  ((Z.land i2s_other_role SND_SOC_DAIFMT_FORMAT_MASK <> SND_SOC_DAIFMT_I2S /\
    Z.land i2s_other_role SND_SOC_DAIFMT_FORMAT_MASK
      <> SND_SOC_DAIFMT_LEFT_J) \/
   (Z.land i2s_other_role SND_SOC_DAIFMT_MASTER_MASK
      <> SND_SOC_DAIFMT_CBS_CFS /\
    Z.land i2s_other_role SND_SOC_DAIFMT_MASTER_MASK
      <> SND_SOC_DAIFMT_CBM_CFM)) /\
  fst (cs4270_set_dai_fmt left_justified_master i2s_other_role) = - EINVAL /\
  mclk (drvdata (snd (cs4270_set_dai_fmt left_justified_master
                                         i2s_other_role)))
    = mclk (drvdata left_justified_master) /\
  slave_mode (drvdata (snd (cs4270_set_dai_fmt left_justified_master
                                               i2s_other_role)))
    = slave_mode (drvdata left_justified_master).
Proof.
  assert (Hbad :
    (Z.land i2s_other_role SND_SOC_DAIFMT_FORMAT_MASK
       <> SND_SOC_DAIFMT_I2S /\
     Z.land i2s_other_role SND_SOC_DAIFMT_FORMAT_MASK
       <> SND_SOC_DAIFMT_LEFT_J) \/
    (Z.land i2s_other_role SND_SOC_DAIFMT_MASTER_MASK
       <> SND_SOC_DAIFMT_CBS_CFS /\
     Z.land i2s_other_role SND_SOC_DAIFMT_MASTER_MASK
       <> SND_SOC_DAIFMT_CBM_CFM))
    by (right; split; vm_compute; discriminate).
  pose proof (set_dai_fmt_invalid left_justified_master i2s_other_role Hbad)
    as Hthm.
  split; [exact Hbad |].
  split; [exact (proj1 Hthm) |].
  split; [exact (proj1 (proj2 Hthm)) |].
  exact (proj1 (proj2 (proj2 Hthm))).
Defined.

Lemma set_dai_fmt_idempotent_witness :
  (Z.land i2s_slave SND_SOC_DAIFMT_FORMAT_MASK = SND_SOC_DAIFMT_I2S \/
   Z.land i2s_slave SND_SOC_DAIFMT_FORMAT_MASK = SND_SOC_DAIFMT_LEFT_J) /\
  (Z.land i2s_slave SND_SOC_DAIFMT_MASTER_MASK = SND_SOC_DAIFMT_CBS_CFS \/
   Z.land i2s_slave SND_SOC_DAIFMT_MASTER_MASK = SND_SOC_DAIFMT_CBM_CFM) /\
  fst (cs4270_set_dai_fmt (probed []) i2s_slave) = 0 /\
  cs4270_set_dai_fmt (snd (cs4270_set_dai_fmt (probed []) i2s_slave))
                     i2s_slave
  = cs4270_set_dai_fmt (probed []) i2s_slave.
Proof.
  assert (Hfmt :
    Z.land i2s_slave SND_SOC_DAIFMT_FORMAT_MASK = SND_SOC_DAIFMT_I2S \/
    Z.land i2s_slave SND_SOC_DAIFMT_FORMAT_MASK = SND_SOC_DAIFMT_LEFT_J)
    by (left; reflexivity).
  assert (Hrole :
    Z.land i2s_slave SND_SOC_DAIFMT_MASTER_MASK = SND_SOC_DAIFMT_CBS_CFS \/
    Z.land i2s_slave SND_SOC_DAIFMT_MASTER_MASK = SND_SOC_DAIFMT_CBM_CFM)
    by (left; reflexivity).
  split; [exact Hfmt |]. split; [exact Hrole |].
  exact (set_dai_fmt_idempotent (probed []) i2s_slave Hfmt Hrole).
Defined.

Lemma dai_mute_keeps_manual_mute_witness :
  @reachable errata_off soc_dai_numbering _ _ left_switch_off /\
  exists v,
    cs4270_dai_mute left_switch_off 0
    = (fst (snd_soc_write (io left_switch_off) CS4270_MUTE v),
       with_io left_switch_off
               (snd (snd_soc_write (io left_switch_off) CS4270_MUTE v))) /\
    Z.land v (Z.lnot (Z.lor CS4270_MUTE_DAC_A CS4270_MUTE_DAC_B))
    = Z.land (snd_soc_read (io left_switch_off) CS4270_MUTE)
             (Z.lnot (Z.lor CS4270_MUTE_DAC_A CS4270_MUTE_DAC_B)) /\
    (0 = 0 ->
     Z.land v (Z.lor CS4270_MUTE_DAC_A CS4270_MUTE_DAC_B)
     = manual_mute (drvdata left_switch_off)) /\
    (0 <> 0 ->
     Z.land v (Z.lor CS4270_MUTE_DAC_A CS4270_MUTE_DAC_B)
     = Z.lor CS4270_MUTE_DAC_A CS4270_MUTE_DAC_B).
Proof.
  assert (Hreach : @reachable errata_off soc_dai_numbering _ _
                              left_switch_off)
    by (apply reach_put_mute; apply (reach_probe 0)).
  split; [exact Hreach |].
  exact (@dai_mute_keeps_manual_mute errata_off soc_dai_numbering _ _
           left_switch_off 0 Hreach).
Defined.

(** The run behind the witness: the left switch is off, so unmuting
    leaves DAC A muted. *)
Example unmute_keeps_manual_mute_run :
  manual_mute (drvdata left_switch_off) = CS4270_MUTE_DAC_A /\
  hw_log (io (snd (cs4270_dai_mute left_switch_off 1))) =
    [(CS4270_MUTE, 0x21); (CS4270_MUTE, 0x23)] /\
  hw_log (io (snd (cs4270_dai_mute
                     (snd (cs4270_dai_mute left_switch_off 1)) 0))) =
    [(CS4270_MUTE, 0x21); (CS4270_MUTE, 0x23); (CS4270_MUTE, 0x21)].
Proof. repeat split. Qed.

(** C8, as stated, fails: with the MCLK frequency still 0 the call returns
    -EINVAL, the very code of an unsupported ratio, not a code of its
    own. *)
Lemma unknown_mclk_error_not_distinct :
  ~ (forall (codec : snd_soc_codec regmap) (rate : Z),
       mclk (drvdata codec) = 0 -> 0 < rate ->
       exists err,
         @cs4270_hw_params errata_off soc_dai_numbering _ _ codec rate
           = Some (err, codec) /\
         err <> - EINVAL).
Proof.
  intro Hall.
  destruct (Hall (probed []) 48000) as [err [Hres Herr]].
  - reflexivity.
  - lia.
  - vm_compute in Hres. inversion Hres as [Hcode].
    apply Herr. rewrite <- Hcode. reflexivity.
Qed.

Lemma hw_params_unknown_mclk_witness :
  mclk (drvdata (probed [])) = 0 /\ 0 < 48000 /\
  @cs4270_hw_params errata_off soc_dai_numbering _ _ (probed []) 48000
  = Some (- EINVAL, probed []).
Proof.
  assert (Hmclk : mclk (drvdata (probed [])) = 0) by reflexivity.
  assert (Hrate : 0 < 48000) by lia.
  split; [exact Hmclk |]. split; [exact Hrate |].
  exact (@hw_params_unknown_mclk errata_off soc_dai_numbering _ _
           (probed []) 48000 Hmclk Hrate).
Defined.

(** A bus whose first transaction fails with -5: the call returns -5 and
    the Mode Control write is the only transaction attempted. *)
Lemma hw_params_mode_write_error_witness :
  0 < 48000 /\
  @cs4270_hw_params errata_off soc_dai_numbering _ _
    (started [-5] 12288000) 48000
  = Some (-5, with_io (started [-5] 12288000)
                (mk_regmap cs4270_default_reg_cache []
                           [(CS4270_MODE, 0x00)])).
Proof.
  assert (Hrate : 0 < 48000) by lia.
  split; [exact Hrate |].
  refine (@hw_params_mode_write_error errata_off soc_dai_numbering _ _
            (started [-5] 12288000) 48000 (-5) _ Hrate _ _ _).
  - vm_compute. lia.
  - reflexivity.
  - lia.
Defined.

(** A codec set up as clock slave, MCLK 12288000, at 24000 Hz: the ratio
    is 512, whose line {512, 1x, divide-by-2} is the only one with that
    divider; the divider field written is 0x04 and the speed field is the
    slave pattern, not the line's single speed. *)
Lemma hw_params_slave_speed_field_witness :
  0 < 24000 /\
  exists e v,
    e = Ratio.mk 512 CS4270_MODE_1X CS4270_MODE_DIV2 /\
    Ratio.ratio e = 12288000 / 24000 /\
    @mode_programmed soc_dai_numbering _ _
      (snd (cs4270_set_dai_sysclk
              (snd (cs4270_set_dai_fmt (probed []) i2s_slave)) 0 12288000 0))
      v
      (@cs4270_hw_params errata_off soc_dai_numbering _ _
         (snd (cs4270_set_dai_sysclk
                 (snd (cs4270_set_dai_fmt (probed []) i2s_slave))
                 0 12288000 0))
         24000) /\
    v = 0x34 /\
    Z.land v CS4270_MODE_DIV_MASK = CS4270_MODE_DIV2 /\
    Z.land v CS4270_MODE_SPEED_MASK = CS4270_MODE_SLAVE.
Proof.
  assert (Hrate : 0 < 24000) by lia.
  split; [exact Hrate |].
  destruct (@hw_params_slave_speed_field errata_off soc_dai_numbering _ _
              (snd (cs4270_set_dai_sysclk
                      (snd (cs4270_set_dai_fmt (probed []) i2s_slave))
                      0 12288000 0))
              24000 Hrate)
    as [e [v [He [_ [Hq [_ [_ [Hv [Hprog [Hdiv [Hslave _]]]]]]]]]]].
  - vm_compute. lia.
  - exists e, v.
    split; [exact He |]. split; [exact Hq |]. split; [exact Hprog |].
    split; [rewrite Hv, He; reflexivity |].
    split.
    + rewrite Hdiv, He. reflexivity.
    + apply Hslave. vm_compute. discriminate.
Defined.

(** * Further properties of the driver *)

(** ** Registers *)

(** X1: A register the driver declares not volatile is a readable register
    other than the chip ID, and the other way round; each such register
    has its power-on default, a byte, in [cs4270_default_reg_cache]. *)
Theorem nonvolatile_register_cached (reg : Z) :
  (cs4270_reg_is_volatile reg = false <->
   cs4270_reg_is_readable reg = true /\ reg <> CS4270_CHIPID) /\
  (cs4270_reg_is_volatile reg = false ->
   exists v, nth_error cs4270_default_reg_cache (Z.to_nat reg) = Some v /\
             is_byte v).
Proof.
  unfold cs4270_reg_is_volatile, cs4270_reg_is_readable,
    CS4270_FIRSTREG, CS4270_LASTREG, CS4270_CHIPID.
  split.
  - destruct (Z.ltb_spec reg 1), (Z.leb_spec 1 reg), (Z.leb_spec reg 8),
      (Z.eqb_spec reg 1); unfold Z.gtb;
      destruct (reg ?= 8) eqn:Hcmp; simpl;
      try apply Z.compare_eq in Hcmp;
      try (rewrite Z.compare_lt_iff in Hcmp);
      try (rewrite Z.compare_gt_iff in Hcmp);
      split; try discriminate; try lia; try tauto;
      intros [? ?]; try discriminate; lia.
  - intro Hnv.
    assert (Hreg : 2 <= reg <= 8).
    { destruct (Z.ltb_spec reg 1); [discriminate Hnv |].
      unfold Z.gtb in Hnv. destruct (reg ?= 8) eqn:Hcmp; simpl in Hnv;
        try discriminate Hnv;
        [apply Z.compare_eq in Hcmp | rewrite Z.compare_lt_iff in Hcmp];
        apply Z.eqb_neq in Hnv; lia. }
    assert (Hcases : reg = 2 \/ reg = 3 \/ reg = 4 \/ reg = 5 \/ reg = 6 \/
                     reg = 7 \/ reg = 8) by lia.
    unfold is_byte.
    destruct Hcases as [-> | [-> | [-> | [-> | [-> | [-> | ->]]]]]];
      eexists; (split; [reflexivity | lia]).
Qed.

Lemma nonvolatile_register_cached_witness :
  cs4270_reg_is_volatile CS4270_MUTE = false /\
  exists v, nth_error cs4270_default_reg_cache (Z.to_nat CS4270_MUTE)
            = Some v /\ is_byte v.
Proof.
  assert (Hnv : cs4270_reg_is_volatile CS4270_MUTE = false) by reflexivity.
  split; [exact Hnv |].
  exact (proj2 (nonvolatile_register_cached CS4270_MUTE) Hnv).
Defined.

Section FormatFacts.

Context {K : kconfig} {D : soc_dai_h} {H : Type} {IO : soc_io H}.

(** ** Format selection *)

(** X2: [cs4270_set_dai_fmt] returns 0 exactly for a format in {I2S,
    left-justified} with a role in {CBS_CFS, CBM_CFM}, and -EINVAL for
    every other format word: it has no third result. *)
Theorem set_dai_fmt_accepts_iff (codec : snd_soc_codec H) (format : Z) :
  (fst (cs4270_set_dai_fmt codec format) = 0 <->
   (Z.land format SND_SOC_DAIFMT_FORMAT_MASK = SND_SOC_DAIFMT_I2S \/
    Z.land format SND_SOC_DAIFMT_FORMAT_MASK = SND_SOC_DAIFMT_LEFT_J) /\
   (Z.land format SND_SOC_DAIFMT_MASTER_MASK = SND_SOC_DAIFMT_CBS_CFS \/
    Z.land format SND_SOC_DAIFMT_MASTER_MASK = SND_SOC_DAIFMT_CBM_CFM)) /\
  (fst (cs4270_set_dai_fmt codec format) = 0 \/
   fst (cs4270_set_dai_fmt codec format) = - EINVAL).
Proof.
  unfold cs4270_set_dai_fmt.
  destruct (Z.eqb_spec (Z.land format SND_SOC_DAIFMT_FORMAT_MASK)
                       SND_SOC_DAIFMT_I2S) as [HI | HI];
  destruct (Z.eqb_spec (Z.land format SND_SOC_DAIFMT_FORMAT_MASK)
                       SND_SOC_DAIFMT_LEFT_J) as [HL | HL];
  destruct (Z.eqb_spec (Z.land format SND_SOC_DAIFMT_MASTER_MASK)
                       SND_SOC_DAIFMT_CBS_CFS) as [HS | HS];
  destruct (Z.eqb_spec (Z.land format SND_SOC_DAIFMT_MASTER_MASK)
                       SND_SOC_DAIFMT_CBM_CFM) as [HM | HM];
  simpl; (split; [split |]); try tauto;
  try (intro Hz; discriminate Hz).
Qed.

(** X3: An accepted format word leaves its format in [mode]; the slave-mode
    flag is 1 for the role CBS_CFS and 0 otherwise (that is, for CBM_CFM);
    the MCLK frequency, the manual-mute bits and the host are as before. *)
Theorem set_dai_fmt_stores (codec : snd_soc_codec H) (format : Z) :
  fst (cs4270_set_dai_fmt codec format) = 0 ->
  mode (drvdata (snd (cs4270_set_dai_fmt codec format)))
    = Z.land format SND_SOC_DAIFMT_FORMAT_MASK /\
  (mode (drvdata (snd (cs4270_set_dai_fmt codec format)))
     = SND_SOC_DAIFMT_I2S \/
   mode (drvdata (snd (cs4270_set_dai_fmt codec format)))
     = SND_SOC_DAIFMT_LEFT_J) /\
  slave_mode (drvdata (snd (cs4270_set_dai_fmt codec format)))
    = (if Z.land format SND_SOC_DAIFMT_MASTER_MASK =? SND_SOC_DAIFMT_CBS_CFS
       then 1 else 0) /\
  mclk (drvdata (snd (cs4270_set_dai_fmt codec format)))
    = mclk (drvdata codec) /\
  manual_mute (drvdata (snd (cs4270_set_dai_fmt codec format)))
    = manual_mute (drvdata codec) /\
  io (snd (cs4270_set_dai_fmt codec format)) = io codec.
Proof.
  unfold cs4270_set_dai_fmt.
  destruct (Z.eqb_spec (Z.land format SND_SOC_DAIFMT_FORMAT_MASK)
                       SND_SOC_DAIFMT_I2S) as [HI | HI];
  destruct (Z.eqb_spec (Z.land format SND_SOC_DAIFMT_FORMAT_MASK)
                       SND_SOC_DAIFMT_LEFT_J) as [HL | HL];
  destruct (Z.eqb_spec (Z.land format SND_SOC_DAIFMT_MASTER_MASK)
                       SND_SOC_DAIFMT_CBS_CFS) as [HS | HS];
  destruct (Z.eqb_spec (Z.land format SND_SOC_DAIFMT_MASTER_MASK)
                       SND_SOC_DAIFMT_CBM_CFM) as [HM | HM];
  simpl; intro Hz; try discriminate Hz;
  repeat split; tauto.
Qed.

(** X4: With a stored format the driver knows, a line found and a Mode Control
    write that went through, [cs4270_hw_params] writes the Format register
    and returns the result of that write.  The image keeps the bits
    outside the DAC and ADC format fields as read; the two fields hold the
    I2S patterns when the mode is I2S and the left-justified patterns
    otherwise. *)
Theorem hw_params_format_image (codec : snd_soc_codec H) (rate : Z)
    (ret : Z) (h1 : H) :
  0 < rate ->
  (ratio_scan cs4270_mode_ratios (mclk (drvdata codec) / rate) 0
     < NUM_MCLK_RATIOS)%nat ->
  snd_soc_write (io codec) CS4270_MODE
    (mode_image codec
       (ratio_at (ratio_scan cs4270_mode_ratios
                             (mclk (drvdata codec) / rate) 0)))
    = (ret, h1) ->
  0 <= ret ->
  mode (drvdata codec) = SND_SOC_DAIFMT_I2S \/
  mode (drvdata codec) = SND_SOC_DAIFMT_LEFT_J ->
  exists v,
    cs4270_hw_params codec rate
    = Some (fst (snd_soc_write h1 CS4270_FORMAT v),
            with_io codec (snd (snd_soc_write h1 CS4270_FORMAT v))) /\
    Z.land v (Z.lnot (Z.lor CS4270_FORMAT_DAC_MASK CS4270_FORMAT_ADC_MASK))
    = Z.land (snd_soc_read h1 CS4270_FORMAT)
             (Z.lnot (Z.lor CS4270_FORMAT_DAC_MASK CS4270_FORMAT_ADC_MASK)) /\
    (mode (drvdata codec) = SND_SOC_DAIFMT_I2S ->
     Z.land v CS4270_FORMAT_DAC_MASK = CS4270_FORMAT_DAC_I2S /\
     Z.land v CS4270_FORMAT_ADC_MASK = CS4270_FORMAT_ADC_I2S) /\
    (mode (drvdata codec) <> SND_SOC_DAIFMT_I2S ->
     Z.land v CS4270_FORMAT_DAC_MASK = CS4270_FORMAT_DAC_LJ /\
     Z.land v CS4270_FORMAT_ADC_MASK = CS4270_FORMAT_ADC_LJ).
Proof.
  intros Hrate Hscan W Hret Hmode.
  assert (Hnz : (rate =? 0) = false) by (apply Z.eqb_neq; lia).
  assert (Hne : Nat.eqb (ratio_scan cs4270_mode_ratios
                           (mclk (drvdata codec) / rate) 0)
                        NUM_MCLK_RATIOS = false)
    by (apply Nat.eqb_neq; lia).
  assert (Hlt : (ret <? 0) = false) by (apply Z.ltb_ge; exact Hret).
  unfold cs4270_hw_params.
  rewrite Hnz, Hne, mode_value_eq.
  fold (mode_image codec
          (ratio_at (ratio_scan cs4270_mode_ratios
                                (mclk (drvdata codec) / rate) 0))).
  rewrite W, Hlt.
  set (mask := Z.lor CS4270_FORMAT_DAC_MASK CS4270_FORMAT_ADC_MASK).
  set (old := snd_soc_read h1 CS4270_FORMAT).
  destruct (Z.eqb_spec (mode (drvdata codec)) SND_SOC_DAIFMT_I2S)
    as [HI | HI].
  - exists (composeRegister old mask
              (Z.lor CS4270_FORMAT_DAC_I2S CS4270_FORMAT_ADC_I2S)).
    unfold composeRegister at 1 2.
    split; [now destruct (snd_soc_write h1 CS4270_FORMAT _) |].
    split; [now apply composeRegister_frame |].
    split; [| intro Hno; contradiction].
    intros _. split; now rewrite composeRegister_subfield.
  - assert (HL : (mode (drvdata codec) =? SND_SOC_DAIFMT_LEFT_J) = true)
      by (apply Z.eqb_eq; tauto).
    rewrite HL.
    exists (composeRegister old mask
              (Z.lor CS4270_FORMAT_DAC_LJ CS4270_FORMAT_ADC_LJ)).
    unfold composeRegister at 1 2.
    split; [now destruct (snd_soc_write h1 CS4270_FORMAT _) |].
    split; [now apply composeRegister_frame |].
    split; [intro Hno; contradiction |].
    intros _. split; now rewrite composeRegister_subfield.
Qed.

(** ** Mute *)

(** X5: After the "Master Playback Switch" has been put with the values
    [value0] and [value1], an unmute writes a MUTE image whose DAC A mute
    bit is set exactly when the left switch is off ([value0] = 0) and whose
    DAC B mute bit is set exactly when the right switch is off; the other
    bits are those read. *)
Theorem put_mute_then_unmute (codec : snd_soc_codec H) (value0 value1 : Z) :
  exists v,
    cs4270_dai_mute (snd (cs4270_soc_put_mute codec value0 value1)) 0
    = (fst (snd_soc_write
              (io (snd (cs4270_soc_put_mute codec value0 value1)))
              CS4270_MUTE v),
       with_io (snd (cs4270_soc_put_mute codec value0 value1))
         (snd (snd_soc_write
                 (io (snd (cs4270_soc_put_mute codec value0 value1)))
                 CS4270_MUTE v))) /\
    Z.testbit v 0 = (value0 =? 0) /\
    Z.testbit v 1 = (value1 =? 0) /\
    Z.land v (Z.lnot (Z.lor CS4270_MUTE_DAC_A CS4270_MUTE_DAC_B))
    = Z.land (snd_soc_read
                (io (snd (cs4270_soc_put_mute codec value0 value1)))
                CS4270_MUTE)
             (Z.lnot (Z.lor CS4270_MUTE_DAC_A CS4270_MUTE_DAC_B)).
Proof.
  set (c1 := snd (cs4270_soc_put_mute codec value0 value1)).
  set (dac := Z.lor CS4270_MUTE_DAC_A CS4270_MUTE_DAC_B).
  set (old := snd_soc_read (io c1) CS4270_MUTE).
  assert (Hmm : manual_mute (drvdata c1)
                = Z.lor (if value0 =? 0 then CS4270_MUTE_DAC_A else 0)
                        (if value1 =? 0 then CS4270_MUTE_DAC_B else 0))
    by apply put_mute_manual_mute.
  exists (composeRegister old dac (manual_mute (drvdata c1))).
  split; [| split; [| split]].
  - unfold cs4270_dai_mute. simpl negb. cbv iota.
    fold dac. fold old. unfold composeRegister.
    now destruct (snd_soc_write (io c1) CS4270_MUTE _).
  - unfold composeRegister.
    rewrite Z.lor_spec, Z.land_spec, Hmm.
    replace (Z.testbit (Z.lnot dac) 0) with false by reflexivity.
    rewrite andb_false_r.
    destruct (value0 =? 0), (value1 =? 0); reflexivity.
  - unfold composeRegister.
    rewrite Z.lor_spec, Z.land_spec, Hmm.
    replace (Z.testbit (Z.lnot dac) 1) with false by reflexivity.
    rewrite andb_false_r.
    destruct (value0 =? 0), (value1 =? 0); reflexivity.
  - apply composeRegister_frame. rewrite Hmm.
    destruct (value0 =? 0), (value1 =? 0); reflexivity.
Qed.

(** X6: On a host that reads back the MUTE image it was given, a mute
    followed by an unmute ends with the very write an unmute alone would
    have made on the register as it was before the mute: muting leaves no
    trace in what unmuting restores. *)
Theorem mute_then_unmute (codec : snd_soc_codec H) (mute ret : Z) (h1 : H) :
  mute <> 0 ->
  snd_soc_write (io codec) CS4270_MUTE
    (Z.lor (snd_soc_read (io codec) CS4270_MUTE)
           (Z.lor CS4270_MUTE_DAC_A CS4270_MUTE_DAC_B)) = (ret, h1) ->
  snd_soc_read h1 CS4270_MUTE
    = Z.lor (snd_soc_read (io codec) CS4270_MUTE)
            (Z.lor CS4270_MUTE_DAC_A CS4270_MUTE_DAC_B) ->
  cs4270_dai_mute (snd (cs4270_dai_mute codec mute)) 0
  = (fst (snd_soc_write h1 CS4270_MUTE
            (composeRegister (snd_soc_read (io codec) CS4270_MUTE)
               (Z.lor CS4270_MUTE_DAC_A CS4270_MUTE_DAC_B)
               (manual_mute (drvdata codec)))),
     with_io codec
       (snd (snd_soc_write h1 CS4270_MUTE
               (composeRegister (snd_soc_read (io codec) CS4270_MUTE)
                  (Z.lor CS4270_MUTE_DAC_A CS4270_MUTE_DAC_B)
                  (manual_mute (drvdata codec)))))).
Proof.
  intros Hmute W Hread.
  set (dac := Z.lor CS4270_MUTE_DAC_A CS4270_MUTE_DAC_B) in *.
  set (old := snd_soc_read (io codec) CS4270_MUTE) in *.
  assert (Hfirst : cs4270_dai_mute codec mute = (ret, with_io codec h1)).
  { unfold cs4270_dai_mute. rewrite (proj2 (Z.eqb_neq mute 0) Hmute).
    simpl negb. cbv iota. fold dac. fold old. now rewrite W. }
  rewrite Hfirst. unfold cs4270_dai_mute. simpl negb. cbv iota.
  simpl io. simpl drvdata. fold dac. rewrite Hread.
  assert (Hsame : Z.lor (Z.land (Z.lor old dac) (Z.lnot dac))
                        (manual_mute (drvdata codec))
                  = composeRegister old dac (manual_mute (drvdata codec))).
  { unfold composeRegister.
    now rewrite Z.land_lor_distr_l, Z.land_lnot_diag, Z.lor_0_r. }
  rewrite Hsame.
  now destruct (snd_soc_write h1 CS4270_MUTE _).
Qed.

End FormatFacts.

(** ** What reaches the hardware *)

Lemma traced_write_calls {H : Type} {IO : soc_io H} (t t1 : traced H)
    (reg value ret : Z) :
  snd_soc_write t reg value = (ret, t1) ->
  calls t1 = calls t ++ [(h_write reg value, ret)].
Proof.
  unfold snd_soc_write, traced_io, record. simpl.
  intro W. inversion W. reflexivity.
Qed.

Lemma traced_kernel_calls {H : Type} {CORE : soc_core H} (t t1 : traced H)
    (c : kcall) (ret : Z) :
  kernel_call t c = (ret, t1) ->
  calls t1 = calls t ++ [(h_kernel c, ret)].
Proof.
  unfold kernel_call, traced_core, record. simpl.
  intro W. inversion W. reflexivity.
Qed.

Lemma app_same_nil {A : Type} (l new : list A) : l ++ new = l -> new = [].
Proof.
  intro Heq. apply (app_inv_head l). now rewrite app_nil_r.
Qed.

Section TraceFacts.

Context {K : kconfig} {D : soc_dai_h} {H : Type} {IO : soc_io H}.

(** The paths of [cs4270_hw_params], by what they add to the record of
    host calls. *)
Lemma hw_params_paths (codec : snd_soc_codec (traced H)) (rate : Z) r :
  cs4270_hw_params codec rate = Some r ->
  rate <> 0 /\
  ((ratio_scan cs4270_mode_ratios (mclk (drvdata codec) / rate) 0
      = NUM_MCLK_RATIOS /\ r = (- EINVAL, codec)) \/
   ((ratio_scan cs4270_mode_ratios (mclk (drvdata codec) / rate) 0
       < NUM_MCLK_RATIOS)%nat /\
    exists ret,
      let first :=
        (h_write CS4270_MODE
           (mode_image codec
              (ratio_at (ratio_scan cs4270_mode_ratios
                                    (mclk (drvdata codec) / rate) 0))),
         ret) in
      (calls (io (snd r)) = calls (io codec) ++ [first] /\
       (ret < 0 /\ fst r = ret \/ 0 <= ret /\ fst r = - EINVAL)) \/
      (exists v2 ret2,
         0 <= ret /\ fst r = ret2 /\
         calls (io (snd r))
         = calls (io codec) ++ [first; (h_write CS4270_FORMAT v2, ret2)]))).
Proof.
  intro Hcall.
  assert (Hnz : rate <> 0).
  { intro Hz. unfold cs4270_hw_params in Hcall.
    rewrite (proj2 (Z.eqb_eq rate 0) Hz) in Hcall. discriminate Hcall. }
  split; [exact Hnz |].
  destruct (scan_table (mclk (drvdata codec) / rate)) as [Hle _].
  destruct (Nat.eq_dec
              (ratio_scan cs4270_mode_ratios (mclk (drvdata codec) / rate) 0)
              NUM_MCLK_RATIOS) as [Heq | Hneq].
  - left. split; [exact Heq |].
    rewrite (hw_params_no_match codec rate Hnz Heq) in Hcall.
    now inversion Hcall.
  - right.
    assert (Hlt : (ratio_scan cs4270_mode_ratios
                              (mclk (drvdata codec) / rate) 0
                   < NUM_MCLK_RATIOS)%nat) by lia.
    split; [exact Hlt |].
    pose proof (hw_params_match codec rate Hnz Hlt) as Hprog.
    rewrite Hcall in Hprog.
    inversion Hprog as [ret h1 W Hneg Hres
                       | ret h1 W Hpos _ _ Hres
                       | ret h1 v2 ret2 h2 W Hpos W2 Hres];
      exists ret; subst r; simpl.
    + left. split; [now apply traced_write_calls |]. left. now split.
    + left. split; [now apply traced_write_calls |]. right. now split.
    + right. exists v2, ret2. split; [exact Hpos |]. split; [reflexivity |].
      rewrite (traced_write_calls _ _ _ _ _ W2).
      rewrite (traced_write_calls _ _ _ _ _ W).
      now rewrite <- app_assoc.
Qed.

(** X7: [cs4270_hw_params] makes at most two host calls, both register
    writes: the Mode Control register first, and the Format register only
    after the Mode Control write went through.  With no call made the
    result is -EINVAL; after a failed Mode Control write it is that
    write's error; after both writes it is the result of the second. *)
Theorem hw_params_writes (codec : snd_soc_codec (traced H)) (rate : Z) r :
  cs4270_hw_params codec rate = Some r ->
  exists new,
    calls (io (snd r)) = calls (io codec) ++ new /\
    ((new = [] /\ fst r = - EINVAL) \/
     (exists v ret,
        new = [(h_write CS4270_MODE v, ret)] /\
        (ret < 0 /\ fst r = ret \/ 0 <= ret /\ fst r = - EINVAL)) \/
     (exists v ret v2 ret2,
        new = [(h_write CS4270_MODE v, ret);
               (h_write CS4270_FORMAT v2, ret2)] /\
        0 <= ret /\ fst r = ret2)).
Proof.
  intro Hcall.
  destruct (hw_params_paths codec rate r Hcall)
    as [_ [[_ Hr] | [_ [ret [[Hcalls Hres] | [v2 [ret2 [Hpos [Hres Hcalls]]]]]]]]].
  - exists []. subst r. simpl. rewrite app_nil_r. split; [reflexivity |].
    left. now split.
  - eexists. split; [exact Hcalls |]. right. left.
    eexists. exists ret. split; [reflexivity | exact Hres].
  - eexists. split; [exact Hcalls |]. right. right.
    eexists. exists ret, v2, ret2. now repeat split.
Qed.

(** The ratios of the table are the supported ratios of the comment. *)
Lemma scan_supported (q : Z) :
  (ratio_scan cs4270_mode_ratios q 0 < NUM_MCLK_RATIOS)%nat <->
  In q supported_ratios.
Proof.
  split.
  - intro Hlt.
    destruct (scan_table q) as [_ [_ Hat]]. specialize (Hat Hlt).
    pose proof (ratio_at_In _ Hlt) as Hin.
    apply table_cases in Hin. unfold supported_ratios.
    destruct Hin as
      [Hin | [[He Hin] | [Hin | [Hin | [Hin | [Hin | [Hin | [Hin | Hin]]]]]]]];
      try rewrite He;
      rewrite Hin in Hat; simpl in Hat; subst q;
      destruct CONFIG_SND_SOC_CS4270_VD33_ERRATA; simpl; tauto.
  - intro Hin.
    unfold supported_ratios, NUM_MCLK_RATIOS, cs4270_mode_ratios in *.
    destruct CONFIG_SND_SOC_CS4270_VD33_ERRATA; simpl in Hin;
      repeat (destruct Hin as [Hin | Hin]; [subst q; simpl; lia |]);
      contradiction.
Qed.

(** X8: For rate > 0, [cs4270_hw_params] leaves the hardware alone exactly
    when MCLK / rate is not one of the supported ratios 64, 96 (without the
    errata option), 128, 192, 256, 384, 512, 768 and 1024; it then returns
    -EINVAL and the codec as it was. *)
Theorem hw_params_touches_hardware_iff_supported
    (codec : snd_soc_codec (traced H)) (rate : Z) r :
  cs4270_hw_params codec rate = Some r ->
  (calls (io (snd r)) = calls (io codec) <->
   ~ In (mclk (drvdata codec) / rate) supported_ratios) /\
  (~ In (mclk (drvdata codec) / rate) supported_ratios ->
   r = (- EINVAL, codec)).
Proof.
  intro Hcall.
  destruct (hw_params_paths codec rate r Hcall)
    as [_ [[Heq Hr] | [Hlt [ret Hpath]]]].
  - assert (Hnot : ~ In (mclk (drvdata codec) / rate) supported_ratios).
    { intro Hin. apply scan_supported in Hin. lia. }
    split; [| intros _; exact Hr].
    split; [intros _; exact Hnot |]. intros _. now subst r.
  - assert (Hin : In (mclk (drvdata codec) / rate) supported_ratios)
      by now apply scan_supported.
    split; [| intro Hnot; contradiction].
    split; [| intro Hnot; contradiction].
    intro Hsame. exfalso.
    destruct Hpath as [[Hcalls _] | [v2 [ret2 [_ [_ Hcalls]]]]];
      rewrite Hsame in Hcalls; symmetry in Hcalls;
      apply app_same_nil in Hcalls; discriminate Hcalls.
Qed.

(** X9: With the errata option, no Mode Control image that
    [cs4270_hw_params] writes selects divide-by-1.5, whatever the MCLK
    frequency, the rate and the role. *)
Theorem errata_never_selects_div15 (codec : snd_soc_codec (traced H))
    (rate : Z) r :
  CONFIG_SND_SOC_CS4270_VD33_ERRATA = true ->
  cs4270_hw_params codec rate = Some r ->
  exists new,
    calls (io (snd r)) = calls (io codec) ++ new /\
    forall v ret,
      In (h_write CS4270_MODE v, ret) new ->
      Z.land v CS4270_MODE_DIV_MASK <> CS4270_MODE_DIV15.
Proof.
  intros Herrata Hcall.
  destruct (hw_params_paths codec rate r Hcall)
    as [_ [[_ Hr] | [Hlt [ret Hpath]]]].
  - exists []. subst r. simpl. rewrite app_nil_r. split; [reflexivity |].
    intros v ret Hin. destruct Hin.
  - set (e := ratio_at (ratio_scan cs4270_mode_ratios
                                   (mclk (drvdata codec) / rate) 0)) in *.
    assert (Hdiv : Z.land (mode_image codec e) CS4270_MODE_DIV_MASK
                   <> CS4270_MODE_DIV15).
    { pose proof (ratio_at_In _ Hlt) as Hin. fold e in Hin.
      unfold mode_image, mode_bits.
      rewrite composeRegister_subfield by reflexivity.
      apply table_cases in Hin.
      destruct Hin as
        [Hin | [[He Hin] | [Hin | [Hin | [Hin | [Hin | [Hin | [Hin | Hin]]]]]]]];
        [| rewrite Herrata in He; discriminate He | | | | | | |];
        rewrite Hin; destruct (slave_mode (drvdata codec) =? 0);
        vm_compute; discriminate. }
    destruct Hpath as [[Hcalls _] | [v2 [ret2 [_ [_ Hcalls]]]]];
      eexists; (split; [exact Hcalls |]);
      intros v ret' Hin; simpl in Hin.
    + destruct Hin as [Hin | []]. inversion Hin. exact Hdiv.
    + destruct Hin as [Hin | [Hin | []]].
      * inversion Hin. exact Hdiv.
      * inversion Hin.
Qed.

End TraceFacts.

(** ** Probe, removal and power management *)

Section LifecycleFacts.

Context {H : Type} {IO : soc_io H} {CORE : soc_core H}.

Ltac next_kernel_call r t E :=
  match goal with
  | |- context [kernel_call ?h ?c] =>
      destruct (kernel_call h c) as [r t] eqn:E;
      apply traced_kernel_calls in E
  end.

(** The paths of [cs4270_probe]: the results [rs] of the calls made from
    [cs4270_probe_calls], in order, all but the last non-negative. *)
Lemma probe_paths (codec : snd_soc_codec (traced H)) :
  drvdata (snd (cs4270_probe codec)) = drvdata codec /\
  exists pre last tail,
    calls (io (snd (cs4270_probe codec)))
    = calls (io codec)
      ++ combine (map h_kernel
                      (cs4270_probe_calls (control_type (drvdata codec))))
                 (pre ++ [last])
      ++ tail /\
    (length pre < 6)%nat /\
    Forall (fun r => 0 <= r) pre /\
    ((last < 0 /\ fst (cs4270_probe codec) = last /\
      ((length pre < 5)%nat /\ tail = [] \/
       length pre = 5%nat /\
       exists r, tail = [(h_kernel (regulator_bulk_free 3), r)])) \/
     (0 <= last /\ fst (cs4270_probe codec) = 0 /\
      length pre = 5%nat /\ tail = [])).
Proof.
  unfold cs4270_probe.
  assert (Hfail : forall (pre : list Z) (last : Z),
            (length pre < 5)%nat -> Forall (fun r => 0 <= r) pre ->
            last < 0 ->
            (length pre < 6)%nat /\ Forall (fun r => 0 <= r) pre /\
            (last < 0 /\ last = last /\
             ((length pre < 5)%nat /\ @nil (hcall * Z) = [] \/
              length pre = 5%nat /\
              exists r, @nil (hcall * Z)
                        = [(h_kernel (regulator_bulk_free 3), r)]) \/
             0 <= last /\ last = 0 /\ length pre = 5%nat
             /\ @nil (hcall * Z) = [])).
  { intros pre last Hlen Hpre Hlast.
    split; [lia |]. split; [exact Hpre |].
    left. split; [exact Hlast |]. split; [reflexivity |].
    left. now split. }
  next_kernel_call r1 t1 E1.
  destruct (Z.ltb_spec r1 0) as [N1 | P1].
  { split; [reflexivity |]. exists [], r1, []. simpl fst. simpl snd.
    split; [simpl; now rewrite E1 |].
    apply Hfail; [simpl; lia | constructor | exact N1]. }
  next_kernel_call r2 t2 E2.
  destruct (Z.ltb_spec r2 0) as [N2 | P2].
  { split; [reflexivity |]. exists [r1], r2, []. simpl fst. simpl snd.
    split; [simpl; rewrite E2, E1; now rewrite <- !app_assoc |].
    apply Hfail; [simpl; lia | repeat constructor; assumption | exact N2]. }
  next_kernel_call r3 t3 E3.
  destruct (Z.ltb_spec r3 0) as [N3 | P3].
  { split; [reflexivity |]. exists [r1; r2], r3, []. simpl fst. simpl snd.
    split; [simpl; rewrite E3, E2, E1; now rewrite <- !app_assoc |].
    apply Hfail; [simpl; lia | repeat constructor; assumption | exact N3]. }
  next_kernel_call r4 t4 E4.
  destruct (Z.ltb_spec r4 0) as [N4 | P4].
  { split; [reflexivity |]. exists [r1; r2; r3], r4, [].
    simpl fst. simpl snd.
    split; [simpl; rewrite E4, E3, E2, E1; now rewrite <- !app_assoc |].
    apply Hfail; [simpl; lia | repeat constructor; assumption | exact N4]. }
  next_kernel_call r5 t5 E5.
  destruct (Z.ltb_spec r5 0) as [N5 | P5].
  { split; [reflexivity |]. exists [r1; r2; r3; r4], r5, [].
    simpl fst. simpl snd.
    split; [simpl; rewrite E5, E4, E3, E2, E1; now rewrite <- !app_assoc |].
    apply Hfail; [simpl; lia | repeat constructor; assumption | exact N5]. }
  next_kernel_call r6 t6 E6.
  assert (Hpre : Forall (fun r => 0 <= r) [r1; r2; r3; r4; r5])
    by (repeat constructor; assumption).
  destruct (Z.ltb_spec r6 0) as [N6 | P6].
  { next_kernel_call r7 t7 E7.
    split; [reflexivity |].
    exists [r1; r2; r3; r4; r5], r6, [(h_kernel (regulator_bulk_free 3), r7)].
    simpl fst. simpl snd.
    split; [simpl; rewrite E7, E6, E5, E4, E3, E2, E1;
            now rewrite <- !app_assoc |].
    split; [simpl; lia |]. split; [exact Hpre |].
    left. split; [exact N6 |]. split; [reflexivity |].
    right. split; [reflexivity |]. now exists r7. }
  split; [reflexivity |].
  exists [r1; r2; r3; r4; r5], r6, []. simpl fst. simpl snd.
  split; [simpl; rewrite E6, E5, E4, E3, E2, E1;
          now rewrite <- !app_assoc |].
  split; [simpl; lia |]. split; [exact Hpre |].
  right. split; [exact P6 |]. split; [reflexivity |]. now split.
Qed.

(** X10: [cs4270_probe] makes the calls of [cs4270_probe_calls] in order and
    stops at the first that returns a negative code, which it returns; it
    returns 0 when all six went through.  The only call it can make after
    a failure is the one freeing the regulators. *)
Theorem probe_stops_at_first_error (codec : snd_soc_codec (traced H)) :
  exists pre last tail,
    calls (io (snd (cs4270_probe codec)))
    = calls (io codec)
      ++ combine (map h_kernel
                      (cs4270_probe_calls (control_type (drvdata codec))))
                 (pre ++ [last])
      ++ tail /\
    Forall (fun r => 0 <= r) pre /\
    (forall cr, In cr tail -> fst cr = h_kernel (regulator_bulk_free 3)) /\
    ((fst (cs4270_probe codec) = 0 /\ 0 <= last /\
      length pre = 5%nat /\ tail = []) \/
     (fst (cs4270_probe codec) = last /\ last < 0 /\ (length pre < 6)%nat)).
Proof.
  destruct (probe_paths codec)
    as [_ [pre [last [tail [Hcalls [Hlen [Hpre Hout]]]]]]].
  exists pre, last, tail.
  split; [exact Hcalls |]. split; [exact Hpre |].
  destruct Hout as [[Hneg [Hret Htail]] | [Hpos [Hret [Hfive Htail]]]].
  - split.
    + destruct Htail as [[_ Htail] | [_ [r Htail]]]; subst tail;
        intros cr Hin; simpl in Hin; [contradiction |].
      destruct Hin as [<- | []]. reflexivity.
    + right. now repeat split.
  - split; [subst tail; intros cr [] |]. left. now repeat split.
Qed.

(** X11: [cs4270_probe] returns 0 or a negative code.  When it returns 0 the
    regulators were enabled and not freed; when it fails, either
    [regulator_bulk_get] never succeeded or the regulators were freed. *)
Theorem probe_releases_regulators (codec : snd_soc_codec (traced H)) :
  exists new,
    calls (io (snd (cs4270_probe codec))) = calls (io codec) ++ new /\
    ((fst (cs4270_probe codec) = 0 /\
      (exists r, In (h_kernel (regulator_bulk_enable 3), r) new /\ 0 <= r) /\
      (forall r, ~ In (h_kernel (regulator_bulk_free 3), r) new)) \/
     (fst (cs4270_probe codec) < 0 /\
      ((forall r, In (h_kernel (regulator_bulk_get 3 supply_names), r) new ->
                  r < 0) \/
       exists r, In (h_kernel (regulator_bulk_free 3), r) new))).
Proof.
  destruct (probe_paths codec)
    as [_ [pre [last [tail [Hcalls [Hlen [Hpre Hout]]]]]]].
  eexists. split; [exact Hcalls |].
  destruct Hout as [[Hneg [Hret Htail]] | [Hpos [Hret [Hfive Htail]]]].
  - right. split; [lia |].
    destruct Htail as [[Hshort Htail] | [Hfive [r Htail]]]; subst tail.
    + left. intros r Hin. rewrite app_nil_r in Hin.
      destruct pre as [| a [| b [| c [| d [| e pre]]]]];
        simpl in Hshort; try lia; simpl in Hin;
        repeat (destruct Hin as [Hin | Hin];
                [inversion Hin; subst; try lia |]);
        try contradiction.
    + right. exists r. apply in_or_app. right. now left.
  - left. split; [exact Hret |]. subst tail. rewrite app_nil_r.
    destruct pre as [| a [| b [| c [| d [| e [| f pre]]]]]];
      simpl in Hfive; try discriminate Hfive.
    simpl. split.
    + exists last. split; [| exact Hpos]. tauto.
    + intros r Hin.
      repeat (destruct Hin as [Hin | Hin]; [discriminate Hin |]).
      contradiction.
Qed.

Lemma int_of_unsigned_low (x : Z) :
  0 <= x < 2 ^ 31 -> int_of_unsigned x = x.
Proof.
  intro Hx. unfold int_of_unsigned.
  rewrite Z.mod_small by lia. lia.
Qed.

Lemma int_of_unsigned_high (x : Z) :
  2 ^ 31 <= x < 2 ^ 32 -> int_of_unsigned x = x - 2 ^ 32.
Proof.
  intro Hx. unfold int_of_unsigned.
  replace (x + 2 ^ 31) with (x - 2 ^ 31 + 1 * 2 ^ 32) by lia.
  rewrite Z.mod_add by lia. rewrite Z.mod_small by lia. lia.
Qed.

Lemma fits_land_ones (n x : Z) :
  0 <= n -> (0 <= x < 2 ^ n <-> Z.land x (Z.ones n) = x).
Proof.
  intro Hn. rewrite Z.land_ones by exact Hn. split.
  - intro Hx. now apply Z.mod_small.
  - intro Hx. rewrite <- Hx. apply Z.mod_pos_bound. lia.
Qed.

Lemma lor_range (n a b : Z) :
  0 <= n -> 0 <= a < 2 ^ n -> 0 <= b < 2 ^ n -> 0 <= Z.lor a b < 2 ^ n.
Proof.
  intros Hn Ha Hb.
  apply (fits_land_ones n _ Hn).
  rewrite Z.land_lor_distr_l.
  now rewrite (proj1 (fits_land_ones n a Hn) Ha),
              (proj1 (fits_land_ones n b Hn) Hb).
Qed.

Lemma lor_lt_inv (n a b : Z) :
  0 <= n -> 0 <= a -> 0 <= b -> Z.lor a b < 2 ^ n -> a < 2 ^ n.
Proof.
  intros Hn Ha Hb Hlt.
  assert (Hor : 0 <= Z.lor a b < 2 ^ n)
    by (split; [apply Z.lor_nonneg; now split | exact Hlt]).
  apply (fits_land_ones n _ Hn) in Hor.
  assert (Habs : Z.land a (Z.lor a b) = a).
  { apply Z.bits_inj'. intros k _.
    rewrite Z.land_spec, Z.lor_spec.
    destruct (Z.testbit a k), (Z.testbit b k); reflexivity. }
  assert (Hfit : Z.land a (Z.ones n) = a).
  { rewrite <- Habs at 1. rewrite <- Z.land_assoc, Hor. exact Habs. }
  apply (fits_land_ones n a Hn) in Hfit. lia.
Qed.

(** X12: for a PWRCTL value read in the range of [unsigned int],
    [cs4270_soc_suspend] composes the image with the three power-down bits
    set and the other bits as read.  When the value read has bit 31 set,
    the [int] holding the image is negative: the suspend returns it, the
    image less 2^32, and asks nothing of the host.  Otherwise it writes the
    image, and disables the supplies only after that write went through: a
    failed write returns its error with the supplies left on. *)
Theorem suspend_powers_down_before_cut (codec : snd_soc_codec (traced H)) :
  0 <= snd_soc_read (io codec) CS4270_PWRCTL < 2 ^ 32 ->
  exists v new,
    v = Z.lor (snd_soc_read (io codec) CS4270_PWRCTL) CS4270_PWRCTL_PDN_ALL /\
    0 <= v < 2 ^ 32 /\
    Z.land v CS4270_PWRCTL_PDN_ALL = CS4270_PWRCTL_PDN_ALL /\
    Z.land v (Z.lnot CS4270_PWRCTL_PDN_ALL)
    = Z.land (snd_soc_read (io codec) CS4270_PWRCTL)
             (Z.lnot CS4270_PWRCTL_PDN_ALL) /\
    drvdata (snd (cs4270_soc_suspend codec)) = drvdata codec /\
    calls (io (snd (cs4270_soc_suspend codec))) = calls (io codec) ++ new /\
    ((2 ^ 31 <= snd_soc_read (io codec) CS4270_PWRCTL /\ new = [] /\
      fst (cs4270_soc_suspend codec) = v - 2 ^ 32 /\
      fst (cs4270_soc_suspend codec) < 0) \/
     (snd_soc_read (io codec) CS4270_PWRCTL < 2 ^ 31 /\ exists ret,
        ret < 0 /\ new = [(h_write CS4270_PWRCTL v, ret)] /\
        fst (cs4270_soc_suspend codec) = ret) \/
     (snd_soc_read (io codec) CS4270_PWRCTL < 2 ^ 31 /\ exists ret r,
        0 <= ret /\
        new = [(h_write CS4270_PWRCTL v, ret);
               (h_kernel (regulator_bulk_disable 3), r)] /\
        fst (cs4270_soc_suspend codec) = 0)).
Proof.
  intro Hread.
  set (old := snd_soc_read (io codec) CS4270_PWRCTL) in *.
  set (v := Z.lor old CS4270_PWRCTL_PDN_ALL).
  exists v.
  assert (Hpdn : 0 <= CS4270_PWRCTL_PDN_ALL < 2 ^ 31)
    by (vm_compute; split; [discriminate | reflexivity]).
  assert (Hv : 0 <= v < 2 ^ 32)
    by (apply lor_range; [lia | exact Hread | lia]).
  assert (Hbits : Z.land v CS4270_PWRCTL_PDN_ALL = CS4270_PWRCTL_PDN_ALL)
    by (unfold v; rewrite Z.land_lor_distr_l, Z.land_diag;
        apply lor_land_absorb).
  assert (Hframe : Z.land v (Z.lnot CS4270_PWRCTL_PDN_ALL)
                   = Z.land old (Z.lnot CS4270_PWRCTL_PDN_ALL))
    by (unfold v; rewrite Z.land_lor_distr_l, Z.land_lnot_diag;
        apply Z.lor_0_r).
  unfold cs4270_soc_suspend. fold old. fold v.
  destruct (Z.lt_ge_cases old (2 ^ 31)) as [Hlow | Hhigh].
  - assert (Hvlow : 0 <= v < 2 ^ 31)
      by (apply lor_range; [lia | lia | exact Hpdn]).
    rewrite (int_of_unsigned_low v Hvlow).
    rewrite (proj2 (Z.ltb_ge v 0)) by lia.
    destruct (snd_soc_write (io codec) CS4270_PWRCTL v) as [ret t1] eqn:W.
    apply traced_write_calls in W.
    destruct (Z.ltb_spec ret 0) as [Nret | Pret].
    + exists [(h_write CS4270_PWRCTL v, ret)].
      split; [reflexivity |]. split; [exact Hv |]. split; [exact Hbits |].
      split; [exact Hframe |]. split; [reflexivity |]. split; [exact W |].
      right. left. split; [exact Hlow |]. exists ret.
      split; [exact Nret |]. split; reflexivity.
    + next_kernel_call r t2 E.
      exists [(h_write CS4270_PWRCTL v, ret);
              (h_kernel (regulator_bulk_disable 3), r)].
      split; [reflexivity |]. split; [exact Hv |]. split; [exact Hbits |].
      split; [exact Hframe |]. split; [reflexivity |].
      split; [simpl; rewrite E, W; now rewrite <- app_assoc |].
      right. right. split; [exact Hlow |]. exists ret, r.
      split; [exact Pret |]. split; reflexivity.
  - assert (Hvhigh : 2 ^ 31 <= v < 2 ^ 32).
    { split; [| lia].
      destruct (Z.lt_ge_cases v (2 ^ 31)) as [Hbad | Hok]; [| exact Hok].
      exfalso.
      pose proof (lor_lt_inv 31 old CS4270_PWRCTL_PDN_ALL) as Hinv.
      fold v in Hinv. lia. }
    rewrite (int_of_unsigned_high v Hvhigh).
    rewrite (proj2 (Z.ltb_lt (v - 2 ^ 32) 0)) by lia.
    exists [].
    split; [reflexivity |]. split; [exact Hv |]. split; [exact Hbits |].
    split; [exact Hframe |]. split; [reflexivity |].
    split; [now rewrite app_nil_r |].
    left. split; [exact Hhigh |]. split; [reflexivity |].
    split; [reflexivity |]. simpl. lia.
Qed.

(** X13: [cs4270_soc_resume] enables the supplies, waits 500 ns and syncs the
    register cache before its one register write, whatever those calls
    return; the write is to PWRCTL, with the three power-down bits clear,
    and its result is the result of the resume. *)
Theorem resume_powers_up_after_supplies (codec : snd_soc_codec (traced H)) :
  exists r1 r2 r3 v ret,
    calls (io (snd (cs4270_soc_resume codec)))
    = calls (io codec)
      ++ [(h_kernel (regulator_bulk_enable 3), r1);
          (h_kernel (ndelay 500), r2);
          (h_kernel snd_soc_cache_sync, r3);
          (h_write CS4270_PWRCTL v, ret)] /\
    Z.land v CS4270_PWRCTL_PDN_ALL = 0 /\
    fst (cs4270_soc_resume codec) = ret /\
    drvdata (snd (cs4270_soc_resume codec)) = drvdata codec.
Proof.
  unfold cs4270_soc_resume.
  next_kernel_call r1 t1 E1.
  next_kernel_call r2 t2 E2.
  next_kernel_call r3 t3 E3.
  destruct (snd_soc_write t3 CS4270_PWRCTL _) as [ret t4] eqn:W.
  apply traced_write_calls in W.
  exists r1, r2, r3,
    (Z.land (snd_soc_read t3 CS4270_PWRCTL) (Z.lnot CS4270_PWRCTL_PDN_ALL)),
    ret.
  split; [| split; [| split; reflexivity]].
  - simpl. rewrite W, E3, E2, E1. now rewrite <- !app_assoc.
  - rewrite <- Z.land_assoc, (Z.land_comm (Z.lnot _)), Z.land_lnot_diag.
    apply Z.land_0_r.
Qed.

(** [cs4270_remove] disables the supplies, then frees them, and returns
    0 whatever the two calls return. *)
Lemma remove_calls (codec : snd_soc_codec (traced H)) :
  exists r1 r2,
    calls (io (snd (cs4270_remove codec)))
    = calls (io codec)
      ++ [(h_kernel (regulator_bulk_disable 3), r1);
          (h_kernel (regulator_bulk_free 3), r2)] /\
    fst (cs4270_remove codec) = 0 /\
    drvdata (snd (cs4270_remove codec)) = drvdata codec.
Proof.
  unfold cs4270_remove.
  next_kernel_call r1 t1 E1.
  next_kernel_call r2 t2 E2.
  exists r1, r2. split; [| split; reflexivity].
  simpl. rewrite E2, E1. now rewrite <- app_assoc.
Qed.

(** X14: A probe that returned 0 followed by a removal has asked for the
    supplies, enabled them, disabled them and freed them, in this order
    and once each. *)
Theorem probe_then_remove_balanced (codec : snd_soc_codec (traced H)) :
  fst (cs4270_probe codec) = 0 ->
  exists new,
    calls (io (snd (cs4270_remove (snd (cs4270_probe codec)))))
    = calls (io codec) ++ new /\
    filter is_regulator_call (map fst new)
    = [h_kernel (regulator_bulk_get 3 supply_names);
       h_kernel (regulator_bulk_enable 3);
       h_kernel (regulator_bulk_disable 3);
       h_kernel (regulator_bulk_free 3)].
Proof.
  intro Hok.
  destruct (probe_paths codec)
    as [_ [pre [last [tail [Hcalls [Hlen [Hpre Hout]]]]]]].
  destruct (remove_calls (snd (cs4270_probe codec)))
    as [r1 [r2 [Hrem _]]].
  destruct Hout as [[Hneg [Hret _]] | [_ [_ [Hfive Htail]]]]; [lia |].
  subst tail. rewrite app_nil_r in Hcalls.
  rewrite Hrem, Hcalls, <- app_assoc.
  eexists. split; [reflexivity |].
  destruct pre as [| a [| b [| c [| d [| e [| f pre]]]]]];
    simpl in Hfive; try discriminate Hfive.
  reflexivity.
Qed.


(** *** The I2C probe *)

(** For an ID byte the test of [cs4270_i2c_probe] on the top four bits
    passes exactly on 0xC0 to 0xCF. *)
Lemma chip_id_test (chip : Z) :
  0 <= chip < 256 ->
  ((Z.land chip 0xF0 =? 0xC0) = true <-> 0xC0 <= chip <= 0xCF).
Proof.
  intro Hid.
  assert (Hall : forallb (fun n => Bool.eqb (Z.land (Z.of_nat n) 0xF0 =? 0xC0)
                                    ((0xC0 <=? Z.of_nat n)
                                     && (Z.of_nat n <=? 0xCF)))
                         (seq 0 256) = true) by (vm_compute; reflexivity).
  rewrite forallb_forall in Hall.
  specialize (Hall (Z.to_nat chip)).
  rewrite Z2Nat.id in Hall by lia.
  assert (Hin : In (Z.to_nat chip) (seq 0 256)) by (apply in_seq; lia).
  apply Hall in Hin. apply eqb_prop in Hin. rewrite Hin.
  rewrite andb_true_iff, !Z.leb_le. tauto.
Qed.

(** The paths of [cs4270_i2c_probe]. *)
Lemma i2c_probe_paths (t : traced H) :
  exists chip,
    let read := (h_kernel (i2c_smbus_read_byte_data CS4270_CHIPID), chip) in
    (chip < 0 /\
     fst (cs4270_i2c_probe t) = (chip, mk_i2c_binding None None) /\
     calls (snd (cs4270_i2c_probe t)) = calls t ++ [read]) \/
    (0 <= chip /\ (Z.land chip 0xF0 =? 0xC0) = false /\
     fst (cs4270_i2c_probe t) = (- ENODEV, mk_i2c_binding None None) /\
     calls (snd (cs4270_i2c_probe t)) = calls t ++ [read]) \/
    (0 <= chip /\ (Z.land chip 0xF0 =? 0xC0) = true /\
     ((fst (cs4270_i2c_probe t) = (- ENOMEM, mk_i2c_binding None None) /\
       calls (snd (cs4270_i2c_probe t))
       = calls t ++ [read; (h_kernel kzalloc_cs4270_private, 0)]) \/
      (exists ptr r1 ret,
         ptr <> 0 /\
         ((ret < 0 /\
           fst (cs4270_i2c_probe t)
           = (ret, mk_i2c_binding (Some ptr) None) /\
           exists r2,
             calls (snd (cs4270_i2c_probe t))
             = calls t ++ [read;
                           (h_kernel kzalloc_cs4270_private, ptr);
                           (h_kernel (i2c_set_clientdata ptr), r1);
                           (h_kernel (snd_soc_register_codec 1), ret);
                           (h_kernel (kfree ptr), r2)]) \/
          (0 <= ret /\
           fst (cs4270_i2c_probe t)
           = (ret, mk_i2c_binding
                     (Some ptr)
                     (Some (cs4270_private_zalloc SND_SOC_I2C))) /\
           calls (snd (cs4270_i2c_probe t))
           = calls t ++ [read;
                         (h_kernel kzalloc_cs4270_private, ptr);
                         (h_kernel (i2c_set_clientdata ptr), r1);
                         (h_kernel (snd_soc_register_codec 1), ret)]))))).
Proof.
  unfold cs4270_i2c_probe.
  next_kernel_call chip t1 E1. exists chip.
  destruct (Z.ltb_spec chip 0) as [Nid | Pid].
  { left. now repeat split. }
  destruct (Z.land chip 0xF0 =? 0xC0) eqn:Htest; simpl negb; cbv iota.
  2:{ right. left. now repeat split. }
  right. right. split; [exact Pid |]. split; [reflexivity |].
  next_kernel_call ptr t2 E2.
  destruct (Z.eqb_spec ptr 0) as [Hnull | Hptr].
  { left. subst ptr. split; [reflexivity |]. simpl. rewrite E2, E1.
    now rewrite <- app_assoc. }
  right.
  next_kernel_call r1 t3 E3.
  next_kernel_call ret t4 E4.
  exists ptr, r1, ret. split; [exact Hptr |].
  destruct (Z.ltb_spec ret 0) as [Nret | Pret].
  - next_kernel_call r2 t5 E5. left.
    split; [exact Nret |]. split; [reflexivity |]. exists r2.
    simpl. rewrite E5, E4, E3, E2, E1. now rewrite <- !app_assoc.
  - right. split; [exact Pret |]. split; [reflexivity |].
    simpl. rewrite E4, E3, E2, E1. now rewrite <- !app_assoc.
Qed.

(** X16: When the chip answers the ID request with a byte, [cs4270_i2c_probe]
    goes on to allocate its private data exactly when the byte is 0xC0 to
    0xCF, any revision of chip ID 0xC; for every other byte it returns
    -ENODEV with no block allocated and the client data not set, the ID
    request being its only call. *)
Theorem i2c_probe_checks_chip_id (t : traced H) :
  exists chip new,
    calls (snd (cs4270_i2c_probe t))
    = calls t ++ (h_kernel (i2c_smbus_read_byte_data CS4270_CHIPID), chip)
                 :: new /\
    (chip < 0 \/ 256 <= chip \/
     (0xC0 <= chip <= 0xCF /\
      exists ptr rest, new = (h_kernel kzalloc_cs4270_private, ptr) :: rest) \/
     (0 <= chip < 256 /\ ~ 0xC0 <= chip <= 0xCF /\ new = [] /\
      fst (cs4270_i2c_probe t) = (- ENODEV, mk_i2c_binding None None))).
Proof.
  destruct (i2c_probe_paths t) as [chip Hpath]. exists chip.
  destruct (Z.lt_ge_cases chip 0) as [Hneg | Hpos].
  { destruct Hpath as [[_ [_ Hc]] | [[Hp _] | [Hp _]]]; try lia.
    exists []. split; [exact Hc |]. now left. }
  destruct (Z.lt_ge_cases chip 256) as [Hbyte | Hbig].
  2:{ destruct Hpath
        as [[Hn _] | [[_ [_ [_ Hc]]] | [_ [_ [[_ Hc] | [ptr [r1 [ret [_
             [[_ [_ [r2 Hc]]] | [_ [_ Hc]]]]]]]]]]]];
        try lia; eexists; (split; [exact Hc |]); right; now left. }
  pose proof (chip_id_test chip (conj Hpos Hbyte)) as Htest.
  destruct Hpath
    as [[Hn _] | [[_ [Hno [Hres Hc]]] | [_ [Hyes [[_ Hc] | [ptr [r1 [ret [_
         [[_ [_ [r2 Hc]]] | [_ [_ Hc]]]]]]]]]]]]; try lia.
  - exists []. split; [exact Hc |]. right. right. right.
    split; [lia |]. split; [| now split].
    intro Hrange. apply Htest in Hrange. rewrite Hrange in Hno.
    discriminate Hno.
  - eexists. split; [exact Hc |]. right. right. left.
    split; [now apply Htest |]. now eexists; eexists.
  - eexists. split; [exact Hc |]. right. right. left.
    split; [now apply Htest |]. now eexists; eexists.
  - eexists. split; [exact Hc |]. right. right. left.
    split; [now apply Htest |]. now eexists; eexists.
Qed.

(** X17: [cs4270_i2c_probe] leaves a private data block allocated only
    when the codec was registered: the block is then all zero but for the
    control type SND_SOC_I2C, the client data points to it, the result is
    not negative and nothing was freed.  Otherwise the result is negative
    and no block is left: whatever [kzalloc] had handed out was freed, and
    the client data, set before the registration, still holds the freed
    pointer; it is not set when nothing was handed out. *)
Theorem i2c_probe_frees_on_failure (t : traced H) :
  exists new,
    calls (snd (cs4270_i2c_probe t)) = calls t ++ new /\
    ((exists ret ptr,
        0 <= ret /\ ptr <> 0 /\
        fst (cs4270_i2c_probe t)
        = (ret, mk_i2c_binding (Some ptr)
                  (Some (cs4270_private_zalloc SND_SOC_I2C))) /\
        In (h_kernel kzalloc_cs4270_private, ptr) new /\
        In (h_kernel (snd_soc_register_codec 1), ret) new /\
        (forall p r, ~ In (h_kernel (kfree p), r) new)) \/
     (exists ret left_behind,
        ret < 0 /\ fst (cs4270_i2c_probe t) = (ret, left_behind) /\
        private_block left_behind = None /\
        (forall ptr,
           In (h_kernel kzalloc_cs4270_private, ptr) new -> ptr <> 0 ->
           clientdata left_behind = Some ptr /\
           exists r, In (h_kernel (kfree ptr), r) new) /\
        ((forall ptr,
            In (h_kernel kzalloc_cs4270_private, ptr) new -> ptr = 0) ->
         clientdata left_behind = None))).
Proof.
  destruct (i2c_probe_paths t) as [chip Hpath].
  destruct Hpath
    as [[Hn [Hres Hc]] | [[_ [_ [Hres Hc]]] | [_ [_ [[Hres Hc]
        | [ptr [r1 [ret [Hptr [[Hret [Hres [r2 Hc]]] | [Hret [Hres Hc]]]]]]]]]]]];
    eexists; (split; [exact Hc |]).
  - right. exists chip, (mk_i2c_binding None None).
    split; [exact Hn |]. split; [exact Hres |]. split; [reflexivity |].
    split; [| intros _; reflexivity].
    intros p [Hin | []]. discriminate Hin.
  - right. exists (- ENODEV), (mk_i2c_binding None None).
    split; [reflexivity |]. split; [exact Hres |]. split; [reflexivity |].
    split; [| intros _; reflexivity].
    intros p [Hin | []]. discriminate Hin.
  - right. exists (- ENOMEM), (mk_i2c_binding None None).
    split; [reflexivity |]. split; [exact Hres |]. split; [reflexivity |].
    split; [| intros _; reflexivity].
    intros p [Hin | [Hin | []]] Hp; [discriminate Hin |].
    inversion Hin. congruence.
  - right. exists ret, (mk_i2c_binding (Some ptr) None).
    split; [exact Hret |]. split; [exact Hres |]. split; [reflexivity |].
    split.
    + intros p Hin _. simpl in Hin.
      destruct Hin as [Hin | [Hin | [Hin | [Hin | [Hin | []]]]]];
        try discriminate Hin.
      inversion Hin. subst p. split; [reflexivity |].
      exists r2. simpl. tauto.
    + intro Hnull. exfalso. apply Hptr. apply Hnull. simpl. tauto.
  - left. exists ret, ptr. split; [exact Hret |]. split; [exact Hptr |].
    split; [exact Hres |].
    split; [simpl; tauto |]. split; [simpl; tauto |].
    intros p r Hin. simpl in Hin.
    destruct Hin as [Hin | [Hin | [Hin | [Hin | []]]]]; discriminate Hin.
Qed.

End LifecycleFacts.

(** ** What never changes the private data *)

Section FrameFacts.

Context {K : kconfig} {D : soc_dai_h} {H : Type} {IO : soc_io H}
        {CORE : soc_core H}.

Lemma probe_drvdata (codec : snd_soc_codec H) :
  drvdata (snd (cs4270_probe codec)) = drvdata codec.
Proof.
  unfold cs4270_probe.
  repeat match goal with
         | |- context [kernel_call ?h ?c] =>
             destruct (kernel_call h c) as [? ?]
         | |- context [?r <? 0] => destruct (r <? 0)
         end; reflexivity.
Qed.

(** X18: The MCLK frequency, the format mode, the slave-mode flag and the
    manual-mute bits are set by the configuration calls alone:
    [cs4270_hw_params] (which returns for every rate but 0),
    [cs4270_dai_mute], the probe, the removal, the suspend and the resume
    all hand the private data back as they found it. *)
Theorem private_data_kept (codec : snd_soc_codec H) (rate mute : Z) :
  match cs4270_hw_params codec rate with
  | Some r => drvdata (snd r) = drvdata codec
  | None => rate = 0
  end /\
  drvdata (snd (cs4270_dai_mute codec mute)) = drvdata codec /\
  drvdata (snd (cs4270_probe codec)) = drvdata codec /\
  drvdata (snd (cs4270_remove codec)) = drvdata codec /\
  drvdata (snd (cs4270_soc_suspend codec)) = drvdata codec /\
  drvdata (snd (cs4270_soc_resume codec)) = drvdata codec.
Proof.
  split; [| split; [| split; [| split; [| split]]]].
  - destruct (cs4270_hw_params codec rate) as [r |] eqn:Hcall.
    + exact (hw_params_drvdata codec rate r Hcall).
    + unfold cs4270_hw_params in Hcall.
      destruct (Z.eqb_spec rate 0) as [Hz | _]; [exact Hz |].
      destruct (Nat.eqb _ _); [discriminate Hcall |].
      destruct (snd_soc_write (io codec) CS4270_MODE _) as [ret h1].
      destruct (ret <? 0); [discriminate Hcall |].
      destruct (mode (drvdata codec) =? SND_SOC_DAIFMT_I2S);
        [destruct (snd_soc_write h1 CS4270_FORMAT _); discriminate Hcall |].
      destruct (mode (drvdata codec) =? SND_SOC_DAIFMT_LEFT_J);
        [destruct (snd_soc_write h1 CS4270_FORMAT _) |];
        discriminate Hcall.
  - apply dai_mute_drvdata.
  - apply probe_drvdata.
  - unfold cs4270_remove.
    destruct (kernel_call (io codec) _) as [r1 h1].
    now destruct (kernel_call h1 _).
  - unfold cs4270_soc_suspend.
    destruct (_ <? 0); [reflexivity |].
    destruct (snd_soc_write (io codec) CS4270_PWRCTL _) as [ret h1].
    destruct (ret <? 0); [reflexivity |].
    now destruct (kernel_call h1 _).
  - unfold cs4270_soc_resume.
    destruct (kernel_call (io codec) _) as [r1 h1].
    destruct (kernel_call h1 _) as [r2 h2].
    destruct (kernel_call h2 _) as [r3 h3].
    now destruct (snd_soc_write h3 CS4270_PWRCTL _).
Qed.

End FrameFacts.

(** ** Runs behind the further properties *)

Lemma set_dai_fmt_stores_witness :
  fst (cs4270_set_dai_fmt (probed []) i2s_slave) = 0 /\
  mode (drvdata (snd (cs4270_set_dai_fmt (probed []) i2s_slave)))
    = Z.land i2s_slave SND_SOC_DAIFMT_FORMAT_MASK.
Proof.
  assert (Hok : fst (cs4270_set_dai_fmt (probed []) i2s_slave) = 0)
    by reflexivity.
  split; [exact Hok |].
  exact (proj1 (set_dai_fmt_stores (probed []) i2s_slave Hok)).
Defined.

Lemma hw_params_format_image_witness :
  0 < 48000 /\
  exists v,
    @cs4270_hw_params errata_off soc_dai_numbering _ _
      (started [] 12288000) 48000
    = Some (fst (snd_soc_write
                   (snd (snd_soc_write (io (started [] 12288000))
                                       CS4270_MODE 0))
                   CS4270_FORMAT v),
            with_io (started [] 12288000)
              (snd (snd_soc_write
                      (snd (snd_soc_write (io (started [] 12288000))
                                          CS4270_MODE 0))
                      CS4270_FORMAT v))) /\
    Z.land v CS4270_FORMAT_DAC_MASK = CS4270_FORMAT_DAC_I2S.
Proof.
  assert (Hrate : 0 < 48000) by lia.
  split; [exact Hrate |].
  destruct (@hw_params_format_image errata_off soc_dai_numbering _ _
              (started [] 12288000) 48000 0
              (snd (snd_soc_write (io (started [] 12288000)) CS4270_MODE 0))
              Hrate)
    as [v [Hres [_ [Hi2s _]]]].
  - vm_compute. lia.
  - reflexivity.
  - lia.
  - left. reflexivity.
  - exists v. split; [exact Hres |]. apply Hi2s. reflexivity.
Defined.

Lemma mute_then_unmute_witness :
  1 <> 0 /\
  cs4270_dai_mute (snd (cs4270_dai_mute left_switch_off 1)) 0
  = (fst (snd_soc_write
            (snd (snd_soc_write (io left_switch_off) CS4270_MUTE 0x23))
            CS4270_MUTE
            (composeRegister (snd_soc_read (io left_switch_off) CS4270_MUTE)
               (Z.lor CS4270_MUTE_DAC_A CS4270_MUTE_DAC_B)
               (manual_mute (drvdata left_switch_off)))),
     with_io left_switch_off
       (snd (snd_soc_write
               (snd (snd_soc_write (io left_switch_off) CS4270_MUTE 0x23))
               CS4270_MUTE
               (composeRegister
                  (snd_soc_read (io left_switch_off) CS4270_MUTE)
                  (Z.lor CS4270_MUTE_DAC_A CS4270_MUTE_DAC_B)
                  (manual_mute (drvdata left_switch_off)))))).
Proof.
  assert (Hmute : 1 <> 0) by discriminate.
  split; [exact Hmute |].
  refine (mute_then_unmute left_switch_off 1 0
            (snd (snd_soc_write (io left_switch_off) CS4270_MUTE 0x23))
            Hmute _ _).
  - reflexivity.
  - reflexivity.
Defined.

Lemma hw_params_writes_witness :
  @cs4270_hw_params errata_off soc_dai_numbering _ _
    (on_record (started [] 12288000)) 48000
  = Some (run_hw_params errata_off (on_record (started [] 12288000)) 48000) /\
  exists new,
    calls (io (snd (run_hw_params errata_off
                      (on_record (started [] 12288000)) 48000)))
    = calls (io (on_record (started [] 12288000))) ++ new /\
    (length new <= 2)%nat.
Proof.
  assert (Hrun : @cs4270_hw_params errata_off soc_dai_numbering _ _
                   (on_record (started [] 12288000)) 48000
                 = Some (run_hw_params errata_off
                           (on_record (started [] 12288000)) 48000))
    by reflexivity.
  split; [exact Hrun |].
  destruct (@hw_params_writes errata_off soc_dai_numbering _ _
              (on_record (started [] 12288000)) 48000 _ Hrun)
    as [new [Hcalls Hshape]].
  exists new. split; [exact Hcalls |].
  destruct Hshape as [[-> _] | [[v [ret [-> _]]] | [v [ret [v2 [ret2 [-> _]]]]]]];
    simpl; lia.
Defined.

Lemma hw_params_touches_hardware_iff_supported_witness :
  @cs4270_hw_params errata_off soc_dai_numbering _ _
    (on_record (started [] 12288000)) 44100
  = Some (run_hw_params errata_off (on_record (started [] 12288000)) 44100) /\
  (calls (io (snd (run_hw_params errata_off
                     (on_record (started [] 12288000)) 44100)))
   = calls (io (on_record (started [] 12288000))) <->
   ~ In (mclk (drvdata (on_record (started [] 12288000))) / 44100)
        (@supported_ratios errata_off)).
Proof.
  assert (Hrun : @cs4270_hw_params errata_off soc_dai_numbering _ _
                   (on_record (started [] 12288000)) 44100
                 = Some (run_hw_params errata_off
                           (on_record (started [] 12288000)) 44100))
    by reflexivity.
  split; [exact Hrun |].
  exact (proj1 (@hw_params_touches_hardware_iff_supported
                  errata_off soc_dai_numbering _ _
                  (on_record (started [] 12288000)) 44100 _ Hrun)).
Defined.

Lemma errata_never_selects_div15_witness :
  @CONFIG_SND_SOC_CS4270_VD33_ERRATA errata_on = true /\
  @cs4270_hw_params errata_on soc_dai_numbering _ _
    (on_record (started [] 12288000)) 48000
  = Some (run_hw_params errata_on (on_record (started [] 12288000)) 48000) /\
  exists new,
    calls (io (snd (run_hw_params errata_on
                      (on_record (started [] 12288000)) 48000)))
    = calls (io (on_record (started [] 12288000))) ++ new /\
    forall v ret,
      In (h_write CS4270_MODE v, ret) new ->
      Z.land v CS4270_MODE_DIV_MASK <> CS4270_MODE_DIV15.
Proof.
  assert (Herrata : @CONFIG_SND_SOC_CS4270_VD33_ERRATA errata_on = true)
    by reflexivity.
  assert (Hrun : @cs4270_hw_params errata_on soc_dai_numbering _ _
                   (on_record (started [] 12288000)) 48000
                 = Some (run_hw_params errata_on
                           (on_record (started [] 12288000)) 48000))
    by reflexivity.
  split; [exact Herrata |]. split; [exact Hrun |].
  exact (@errata_never_selects_div15 errata_on soc_dai_numbering _ _
           (on_record (started [] 12288000)) 48000 _ Herrata Hrun).
Defined.

Lemma probe_then_remove_balanced_witness :
  fst (cs4270_probe (on_record (probed []))) = 0 /\
  exists new,
    calls (io (snd (cs4270_remove
                      (snd (cs4270_probe (on_record (probed [])))))))
    = calls (io (on_record (probed []))) ++ new /\
    filter is_regulator_call (map fst new)
    = [h_kernel (regulator_bulk_get 3 supply_names);
       h_kernel (regulator_bulk_enable 3);
       h_kernel (regulator_bulk_disable 3);
       h_kernel (regulator_bulk_free 3)].
Proof.
  assert (Hok : fst (cs4270_probe (on_record (probed []))) = 0)
    by reflexivity.
  split; [exact Hok |].
  exact (probe_then_remove_balanced (on_record (probed [])) Hok).
Defined.


Lemma suspend_powers_down_before_cut_witness :
  0 <= snd_soc_read (io (on_record (probed []))) CS4270_PWRCTL < 2 ^ 32 /\
  exists v new,
    v = Z.lor (snd_soc_read (io (on_record (probed []))) CS4270_PWRCTL)
              CS4270_PWRCTL_PDN_ALL /\
    Z.land v CS4270_PWRCTL_PDN_ALL = CS4270_PWRCTL_PDN_ALL /\
    calls (io (snd (cs4270_soc_suspend (on_record (probed [])))))
    = calls (io (on_record (probed []))) ++ new.
Proof.
  assert (Hread : 0 <= snd_soc_read (io (on_record (probed [])))
                                    CS4270_PWRCTL < 2 ^ 32)
    by (vm_compute; split; [discriminate | reflexivity]).
  split; [exact Hread |].
  destruct (suspend_powers_down_before_cut (on_record (probed [])) Hread)
    as [v [new [Hv [_ [Hbits [_ [_ [Hcalls _]]]]]]]].
  exists v, new. split; [exact Hv |]. split; [exact Hbits |]. exact Hcalls.
Defined.

(** The two ends of the range: a PWRCTL that reads 0 is written as 0x23
    and the supplies are disabled; one that reads 0xFFFFFFFF makes the
    suspend return -1 with nothing asked of the host. *)
Example suspend_runs :
  cs4270_soc_suspend (on_record (probed []))
  = (0, with_io (on_record (probed []))
          (mk_traced
             (mk_regmap [0; 0; 0x23; 0x30; 0; 0x60; 0x20; 0; 0] []
                        [(CS4270_PWRCTL, 0x23)])
             [(h_write CS4270_PWRCTL 0x23, 0);
              (h_kernel (regulator_bulk_disable 3), 0)])) /\
  cs4270_soc_suspend pwrctl_all_ones = (-1, pwrctl_all_ones).
Proof. split; reflexivity. Qed.

(** A failed registration: the block is freed, and the client data still
    holds the pointer that [i2c_set_clientdata] was given. *)
Example i2c_probe_failed_registration_run :
  @cs4270_i2c_probe (traced regmap)
    (@traced_core regmap regmap_core_unregistered)
    (mk_traced (mk_regmap cs4270_default_reg_cache [] []) [])
  = (-5, mk_i2c_binding (Some 1) None,
     mk_traced (mk_regmap cs4270_default_reg_cache [] [])
       [(h_kernel (i2c_smbus_read_byte_data CS4270_CHIPID), 0xC3);
        (h_kernel kzalloc_cs4270_private, 1);
        (h_kernel (i2c_set_clientdata 1), 0);
        (h_kernel (snd_soc_register_codec 1), -5);
        (h_kernel (kfree 1), 0)]).
Proof. reflexivity. Qed.
